(** * Gestão de Condomínio: the ledger views of [app.py]

    A shallow embedding of the three report views that classify and
    aggregate the rows of [Balanco.dbf] ([index], [dashboard], [balanco]),
    of the monthly series extraction of [dashboard], and of the Python
    built-ins they rely on ([dict.get], [str.strip], [str.upper], [in],
    [or], [float], the [.2f] format).

    Python floats are IEEE 754 binary64 numbers: they are modelled by Rocq's
    primitive floats, so that every sum and difference rounds as it does in
    the running program.  Python exceptions are modelled by an error monad. *)

From Stdlib Require Import ZArith NArith String Ascii List Lia DecimalString.
From Stdlib Require Import Floats.PrimFloat Floats.FloatOps Floats.SpecFloat.
From Stdlib Require Import Floats.FloatAxioms.
From stdpp Require Import gmap strings list.

Set Warnings "-inexact-float".

Local Open Scope Z_scope.

(** ** Exceptions *)

Inductive exn : Type :=
| AttributeError
| TypeError
| ValueError
| OverflowError.

Inductive result (A : Type) : Type :=
| Ok (a : A)
| Raise (e : exn).

Arguments Ok {A} a.
Arguments Raise {A} e.

#[export] Instance result_ret : MRet result := fun A a => Ok a.
#[export] Instance result_bind : MBind result := fun A B f m =>
  match m with
  | Ok a => f a
  | Raise e => Raise e
  end.
#[export] Instance result_fmap : FMap result := fun A B f m =>
  match m with
  | Ok a => Ok (f a)
  | Raise e => Raise e
  end.

(** [try: m except: d] is [try: m  except Exception: d]. *)
Definition try_except {A} (m : result A) (handler : A) : A :=
  match m with
  | Ok a => a
  | Raise _ => handler
  end.

Definition raises {A} (m : result A) : bool :=
  match m with
  | Ok _ => false
  | Raise _ => true
  end.

(** [[f x for x in l]], left to right, stopping at the first exception. *)
Fixpoint map_result {A B : Type} (f : A -> result B) (l : list A)
  : result (list B) :=
  match l with
  | [] => mret []
  | x :: l' => y ← f x; k ← map_result f l'; mret (y :: k)
  end.

(** ** Text

    A Python [str] is a sequence of code points.  [ler_dbf] decodes every
    table with [encoding='latin-1'], so the text of a row only holds code
    points below 256; [isspace] and [upper_char] are Python's on that
    range (upper-casing leaves it at [ÿ] and [µ], and [ß] gives two
    letters). *)

Abbreviation pystr := (list N).

(** The code points of an ASCII literal. *)
Definition u (s : string) : pystr :=
  map N_of_ascii (list_ascii_of_string s).

Definition isspace (c : N) : bool :=
  ((9 <=? c) && (c <=? 13) || (28 <=? c) && (c <=? 32)
   || (c =? 133) || (c =? 160))%N.

Fixpoint lstrip (s : pystr) : pystr :=
  match s with
  | [] => []
  | c :: s' => if isspace c then lstrip s' else s
  end.

Definition rstrip (s : pystr) : pystr := rev (lstrip (rev s)).

Definition strip (s : pystr) : pystr := rstrip (lstrip s).

Definition upper_char (c : N) : pystr :=
  (if (97 <=? c) && (c <=? 122) then [c - 32]
   else if c =? 181 then [924]
   else if c =? 223 then [83; 83]
   else if (224 <=? c) && (c <=? 254) && negb (c =? 247) then [c - 32]
   else if c =? 255 then [376]
   else [c])%N.

Definition upper (s : pystr) : pystr := concat (map upper_char s).

Fixpoint startswith (p s : pystr) : bool :=
  match p, s with
  | [], _ => true
  | _ :: _, [] => false
  | a :: p', b :: s' => (a =? b)%N && startswith p' s'
  end.

(** [py_in p s] is [p in s] on two strings: [p] occurs in [s]. *)
Fixpoint py_in (p s : pystr) : bool :=
  startswith p s ||
  match s with
  | [] => false
  | _ :: s' => py_in p s'
  end.

(** [a == b] on two strings. *)
Definition str_eq (a b : pystr) : bool := bool_decide (a = b).

(** ** Values of a row

    The values of the fields [dbfread] decodes: [None] for an empty
    numeric, logical or date field, [int] or [float] for a numeric field,
    [str] for a character field, [bool] for a logical field and
    [datetime.date] for a date field. *)

Inductive pyval : Type :=
| PyNone
| PyBool (b : bool)
| PyInt (z : Z)
| PyFloat (f : float)
| PyStr (s : pystr)
| PyDate (y m d : Z).

(** A row is a dict from (lower-cased) field names to values. *)
Abbreviation row := (gmap string pyval).

(** [get linha k d] is [linha.get(k, d)]. *)
Definition get (linha : row) (k : string) (d : pyval) : pyval :=
  default d (linha !! k).

(** Truth value of an object, as [or] and [if] test it. *)
Definition truthy (v : pyval) : bool :=
  match v with
  | PyNone => false
  | PyBool b => b
  | PyInt z => negb (z =? 0)
  | PyFloat f => negb (f =? 0)%float
  | PyStr s => negb (bool_decide (s = []))
  | PyDate _ _ _ => true
  end.

(** [py_or a b] is [a or b]. *)
Definition py_or (a b : pyval) : pyval := if truthy a then a else b.

(** [py_strip v] is [v.strip()]: only [str] has the method. *)
Definition py_strip (v : pyval) : result pystr :=
  match v with
  | PyStr s => Ok (strip s)
  | _ => Raise AttributeError
  end.

(** ** [float(x)] *)

(** The binary64 number nearest to [(-1)^neg * m * 10^e], ties to even. *)
Definition dec_to_float (neg : bool) (m e : Z) : float :=
  match m with
  | Zpos p =>
      if 0 <=? e
      then SF2Prim (binary_normalize prec emax
                      ((if neg then Z.opp else id) (m * 10 ^ e)) 0 false)
      else SF2Prim (SFdiv prec emax (S754_finite neg p 0)
                      (S754_finite false (Z.to_pos (10 ^ (- e))) 0))
  | _ => if neg then neg_zero else zero
  end.

(** [float] of an [int]: the nearest binary64 number, and [OverflowError]
    when there is none below infinity. *)
Definition float_of_int (z : Z) : result float :=
  match binary_normalize prec emax z 0 false with
  | S754_infinity _ => Raise OverflowError
  | sf => Ok (SF2Prim sf)
  end.

Definition isdigit (c : N) : bool := ((48 <=? c) && (c <=? 57))%N.

Fixpoint span_digits (s : pystr) : pystr * pystr :=
  match s with
  | c :: s' =>
      if isdigit c
      then let '(ds, r) := span_digits s' in (c :: ds, r)
      else ([], s)
  | [] => ([], [])
  end.

Definition digits_value (ds : pystr) : Z :=
  fold_left (fun acc c => 10 * acc + (Z.of_N c - 48)) ds 0.

(** Whitespace that [float] skips at both ends: the ASCII blanks, and the
    two other Latin-1 spaces, which it first turns into a blank. *)
Definition float_space (c : N) : bool :=
  ((9 <=? c) && (c <=? 13) || (c =? 32) || (c =? 133) || (c =? 160))%N.

Fixpoint float_lstrip (s : pystr) : pystr :=
  match s with
  | [] => []
  | c :: s' => if float_space c then float_lstrip s' else s
  end.

(** An underscore may only stand between two digits; they are dropped. *)
Fixpoint drop_underscores (prev : N) (s : pystr) : option pystr :=
  match s with
  | [] => if (prev =? 95)%N then None else Some []
  | c :: s' =>
      if (c =? 95)%N
      then if isdigit prev then drop_underscores c s' else None
      else if (prev =? 95)%N && negb (isdigit c) then None
      else cons c <$> drop_underscores c s'
  end.

Definition take_sign (s : pystr) : bool * pystr :=
  match s with
  | 45%N :: s' => (true, s')
  | 43%N :: s' => (false, s')
  | _ => (false, s)
  end.

Definition lower_ascii (c : N) : N :=
  (if (65 <=? c) && (c <=? 90) then c + 32 else c)%N.

Definition parse_number (neg : bool) (s : pystr) : option float :=
  let '(ip, r1) := span_digits s in
  let '(fp, r2) :=
    match r1 with
    | 46%N :: r => span_digits r
    | _ => ([], r1)
    end in
  let m := digits_value (ip ++ fp) in
  let k := Z.of_nat (length fp) in
  if bool_decide (ip ++ fp = []) then None
  else match r2 with
       | [] => Some (dec_to_float neg m (- k))
       | c :: r3 =>
           if (lower_ascii c =? 101)%N then
             let '(eneg, r4) := take_sign r3 in
             let '(ed, r5) := span_digits r4 in
             if bool_decide (ed = []) || negb (bool_decide (r5 = []))
             then None
             else
               let x := digits_value ed in
               Some (dec_to_float neg m ((if eneg then - x else x) - k))
           else None
       end.

(** [float] of a [str]; [None] is [ValueError]. *)
Definition float_of_str (s : pystr) : option float :=
  let s1 := rev (float_lstrip (rev (float_lstrip s))) in
  s2 ← drop_underscores 0%N s1;
  let '(neg, s3) := take_sign s2 in
  let l := map lower_ascii s3 in
  if bool_decide (l = u "inf") || bool_decide (l = u "infinity")
  then Some (if neg then neg_infinity else infinity)
  else if bool_decide (l = u "nan") then Some nan
  else parse_number neg s3.

(** [py_float v] is [float(v)]. *)
Definition py_float (v : pyval) : result float :=
  match v with
  | PyNone => Raise TypeError
  | PyBool b => Ok (if b then one else zero)
  | PyInt z => float_of_int z
  | PyFloat f => Ok f
  | PyStr s =>
      match float_of_str s with
      | Some f => Ok f
      | None => Raise ValueError
      end
  | PyDate _ _ _ => Raise TypeError
  end.

(** ** The [.2f] format

    [fmt2 x] is [f"{x:.2f}"]: the exact value of [x], rounded to two
    decimals with ties to even. *)

Definition round_scaled (n e : Z) : Z :=
  if 0 <=? e then n * 2 ^ e
  else
    let d := 2 ^ (- e) in
    let q := n / d in
    let r := n mod d in
    if 2 * r <? d then q
    else if d <? 2 * r then q + 1
    else if Z.even q then q else q + 1.

Definition decimal (z : Z) : string :=
  NilZero.string_of_uint (N.to_uint (Z.to_N z)).

Definition fmt2 (x : float) : string :=
  match Prim2SF x with
  | S754_nan => "nan"
  | S754_infinity s => if s then "-inf" else "inf"
  | S754_zero s => if s then "-0.00" else "0.00"
  | S754_finite s m e =>
      let q := round_scaled (Zpos m * 100) e in
      let cents := q mod 100 in
      let sinal : string := if s then "-" else "" in
      let zero_a_esquerda : string := if cents <? 10 then "0" else "" in
      String.append sinal
        (String.append (decimal (q / 100))
           (String.append "."
              (String.append zero_a_esquerda (decimal cents))))
  end.

(** ** Reading a table *)

(** The tables of the [corrente] folder: [None] when [DBF] raises (file
    missing or unreadable). *)
Definition source : Type := string -> option (list row).

(** [ler_dbf]: any exception gives the empty list. *)
Definition ler_dbf (fs : source) (nome_ficheiro : string) : list row :=
  match fs nome_ficheiro with
  | Some tabela => tabela
  | None => []
  end.

(** ** Reading one row of [Balanco.dbf]

    The first three statements of the loop body, the same in the three
    views:
<<
    conta = linha.get('conta', '').strip().upper()
    tipo = linha.get('tipo', '').strip().upper()
    valor = float(linha.get('valor', 0) or 0)
>>
    [nome] is [linha.get('conta', '').strip()], which [balanco] evaluates
    again for the label it displays. *)

Record linha_lida : Type := LinhaLida {
  nome : pystr;
  conta : pystr;
  tipo : pystr;
  valor : float
}.

(** [float(linha.get(campo, 0) or 0)] *)
Definition numero (linha : row) (campo : string) : result float :=
  py_float (py_or (get linha campo (PyInt 0)) (PyInt 0)).

Definition ler_linha (linha : row) : result linha_lida :=
  nome_ ← py_strip (get linha "conta" (PyStr []));
  tipo_ ← py_strip (get linha "tipo" (PyStr []));
  valor_ ← numero linha "valor";
  mret (LinhaLida nome_ (upper nome_) (upper tipo_) valor_).

(** The loop [for linha in balanco_dbf: ...] of a view whose chain is
    [corpo]: each row is read, then handed to the chain; an exception
    raised while reading a row ends the loop. *)
Fixpoint percorrer {S : Type} (corpo : linha_lida -> S -> S)
    (linhas : list row) (st : S) : result S :=
  match linhas with
  | [] => mret st
  | linha :: resto =>
      l ← ler_linha linha;
      percorrer corpo resto (corpo l st)
  end.

(** The chain applied to rows already read, in order. *)
Definition agregar {S : Type} (corpo : linha_lida -> S -> S)
    (ls : list linha_lida) (st : S) : S :=
  fold_left (fun st l => corpo l st) ls st.

(** The markers the chains look for. *)
Definition TSA := u "TSA".
Definition SALDO := u "SALDO".
Definition ANTERIOR := u "ANTERIOR".
Definition SUBTOTAL := u "SUBTOTAL".
Definition TOTAL := u "TOTAL".
Definition RECEITAS := u "RECEITAS".
Definition DESPESAS := u "DESPESAS".
Definition FINAL := u "FINAL".
Definition DESPESA := u "DESPESA".
Definition RECEITA := u "RECEITA".
Definition JUROS := u "JUROS".
Definition QUOTAS_NORMAIS := u "QUOTAS NORMAIS".
Definition QUOTAS_EXTRAS := u "QUOTAS EXTRAS".
Definition DEPOSITO_ORDEM := u "DEPOSITO ORDEM".
Definition NUMERARIO_CAIXA := u "NUMERARIO CAIXA".
(** ['DEPÓSITO ORDEM'] and ['NUMERÁRIO CAIXA'], with Ó = U+00D3 and
    Á = U+00C1. *)
Definition DEPOSITO_ORDEM_acento := u "DEP" ++ [211%N] ++ u "SITO ORDEM".
Definition NUMERARIO_CAIXA_acento := u "NUMER" ++ [193%N] ++ u "RIO CAIXA".
Definition TOTAIS := u "TOTAIS".

(** The categories a row can fall in: one per target of the chains.
    [FinalBalanceCandidate] is the generic [TOTAL]/[TOTAL] row, whose value
    is only taken while the final balance is still [0.0]. *)
Inductive category : Type :=
| PreviousBalance
| TotalIncome
| TotalExpense
| FinalBalance
| FinalBalanceCandidate
| ExpenseItem
| DepositOrdem
| NumerarioCaixa
| QuotasNormais
| QuotasExtras
| Juros
| Unclassified.

#[export] Instance category_eq_dec : EqDecision category.
Proof. solve_decision. Defined.

(** A priority-ordered rule table; the first rule that matches wins. *)
Definition rule : Type := (linha_lida -> bool) * category.

Fixpoint first_match (rules : list rule) (l : linha_lida) : category :=
  match rules with
  | [] => Unclassified
  | (p, c) :: rules' => if p l then c else first_match rules' l
  end.

(** ** The four running figures of [index] and [dashboard]

    Both views keep the same four local variables, all starting at [0.0]. *)

Record locals : Type := Locals {
  total_receitas : float;
  total_despesas : float;
  saldo_anterior : float;
  saldo_final : float
}.

Definition inicio : locals := Locals 0 0 0 0.

Definition set_total_receitas (v : float) (st : locals) : locals :=
  Locals v (total_despesas st) (saldo_anterior st) (saldo_final st).
Definition set_total_despesas (v : float) (st : locals) : locals :=
  Locals (total_receitas st) v (saldo_anterior st) (saldo_final st).
Definition set_saldo_anterior (v : float) (st : locals) : locals :=
  Locals (total_receitas st) (total_despesas st) v (saldo_final st).
Definition set_saldo_final (v : float) (st : locals) : locals :=
  Locals (total_receitas st) (total_despesas st) (saldo_anterior st) v.

(** What a chain does with the value of a row of a given category. *)
Definition accumulate (c : category) (v : float) (st : locals) : locals :=
  match c with
  | PreviousBalance => set_saldo_anterior v st
  | TotalIncome => set_total_receitas v st
  | TotalExpense => set_total_despesas v st
  | FinalBalance => set_saldo_final v st
  | FinalBalanceCandidate =>
      if (saldo_final st =? 0)%float then set_saldo_final v st else st
  | _ => st
  end.

(** ** [index]: the overview *)

Module Index.

(** The [if]/[elif] chain of the loop body. *)
Definition corpo (l : linha_lida) (st : locals) : locals :=
  let conta := conta l in
  let tipo := tipo l in
  let valor := valor l in
  if py_in TSA conta then set_saldo_anterior valor st
  else if str_eq tipo SUBTOTAL && py_in SALDO conta && py_in ANTERIOR conta
  then set_saldo_anterior valor st
  else if py_in TOTAL conta && py_in SALDO conta && py_in ANTERIOR conta
  then set_saldo_anterior valor st
  else if str_eq tipo SUBTOTAL && py_in RECEITAS conta
  then set_total_receitas valor st
  else if py_in TOTAL conta && py_in RECEITAS conta
  then set_total_receitas valor st
  else if str_eq tipo SUBTOTAL && py_in DESPESAS conta
  then set_total_despesas valor st
  else if py_in TOTAL conta && py_in DESPESAS conta
  then set_total_despesas valor st
  else if str_eq tipo SALDO && py_in FINAL conta
  then set_saldo_final valor st
  else if str_eq tipo TOTAL && str_eq conta TOTAL
  then (if (saldo_final st =? 0)%float then set_saldo_final valor st
        else st)
  else st.

(** [for linha in balanco_dbf: ...] *)
Definition ciclo : list row -> locals -> result locals := percorrer corpo.

(** [if saldo_final == 0.0: saldo_final = saldo_anterior + total_receitas
    - total_despesas] *)
Definition resolver (st : locals) : locals :=
  if (saldo_final st =? 0)%float
  then set_saldo_final
         (saldo_anterior st + total_receitas st - total_despesas st)%float
         st
  else st.

(** The [resumo] dict handed to the template. *)
Record resumo : Type := Resumo {
  r_total_receitas : string;
  r_total_despesas : string;
  r_saldo_anterior : string;
  r_saldo_final : string
}.

Definition formatar (st : locals) : resumo :=
  Resumo (fmt2 (total_receitas st)) (fmt2 (total_despesas st))
         (fmt2 (saldo_anterior st)) (fmt2 (saldo_final st)).

Definition resumo_zero : resumo := Resumo "0.00" "0.00" "0.00" "0.00".

(** The figures before formatting; the exception, when one is raised. *)
Definition calcular (balanco_dbf : list row) : result locals :=
  resolver <$> ciclo balanco_dbf inicio.

(** The view: the whole computation sits in [try: ... except Exception]. *)
Definition view (fs : source) : resumo :=
  try_except (formatar <$> calcular (ler_dbf fs "Balanco.dbf")) resumo_zero.

(** The chain as a table, in the order of the source. *)
Definition regras : list rule :=
  [ (fun l => py_in TSA (conta l), PreviousBalance);
    (fun l => str_eq (tipo l) SUBTOTAL && py_in SALDO (conta l)
              && py_in ANTERIOR (conta l), PreviousBalance);
    (fun l => py_in TOTAL (conta l) && py_in SALDO (conta l)
              && py_in ANTERIOR (conta l), PreviousBalance);
    (fun l => str_eq (tipo l) SUBTOTAL && py_in RECEITAS (conta l),
     TotalIncome);
    (fun l => py_in TOTAL (conta l) && py_in RECEITAS (conta l),
     TotalIncome);
    (fun l => str_eq (tipo l) SUBTOTAL && py_in DESPESAS (conta l),
     TotalExpense);
    (fun l => py_in TOTAL (conta l) && py_in DESPESAS (conta l),
     TotalExpense);
    (fun l => str_eq (tipo l) SALDO && py_in FINAL (conta l),
     FinalBalance);
    (fun l => str_eq (tipo l) TOTAL && str_eq (conta l) TOTAL,
     FinalBalanceCandidate) ].

Definition classify : linha_lida -> category := first_match regras.

End Index.

(** ** [dashboard]: the monthly series and the balance composition *)

Module Dashboard.

Definition meses : list string :=
  ["jan"; "fev"; "mar"; "abr"; "mai"; "jun";
   "jul"; "ago"; "set"; "out"; "nov"; "dez"]%string.

(** [[float(linha.get(mes, 0) or 0) for mes in meses]] *)
Definition serie (linha : row) : result (list float) :=
  map_result (numero linha) meses.

(** The loop that fills [rec_n_fracoes] (and [rec_e_fracoes]): a row
    whose stripped [fraccao] is non-empty and is not [TOTAIS] stores its
    series under that label.  The dict is modelled by a finite map: an
    assignment to a label already present replaces its series. *)
Fixpoint fracoes (linhas : list row) (acc : gmap pystr (list float))
  : result (gmap pystr (list float)) :=
  match linhas with
  | [] => mret acc
  | linha :: resto =>
      fracao ← py_strip (get linha "fraccao" (PyStr []));
      if truthy (PyStr fracao) && negb (str_eq (upper fracao) TOTAIS)
      then s ← serie linha; fracoes resto (<[fracao := s]> acc)
      else fracoes resto acc
  end.

(** The loop over [Despesas.dbf], left at the first [TOTAIS] row;
    [despesas_mensais] stays [[]] when there is none. *)
Fixpoint totais (linhas : list row) : result (list float) :=
  match linhas with
  | [] => mret []
  | linha :: resto =>
      d ← py_strip (get linha "despesas" (PyStr []));
      if str_eq (upper d) TOTAIS then serie linha else totais resto
  end.

(** [if not despesas_mensais: despesas_mensais = [0] * 12] *)
Definition despesas_mensais_de (linhas : list row) : result (list pyval) :=
  ds ← totais linhas;
  mret (if bool_decide (ds = []) then replicate 12 (PyInt 0)
        else PyFloat <$> ds).

Definition corpo (l : linha_lida) (st : locals) : locals :=
  let conta := conta l in
  let tipo := tipo l in
  let valor := valor l in
  if py_in TSA conta then set_saldo_anterior valor st
  else if str_eq tipo SUBTOTAL && py_in SALDO conta && py_in ANTERIOR conta
  then set_saldo_anterior valor st
  else if str_eq tipo SUBTOTAL && py_in RECEITAS conta
  then set_total_receitas valor st
  else if str_eq tipo SUBTOTAL && py_in DESPESAS conta
  then set_total_despesas valor st
  else if str_eq tipo SALDO && py_in FINAL conta
  then set_saldo_final valor st
  else if str_eq tipo TOTAL && str_eq conta TOTAL
  then (if (saldo_final st =? 0)%float then set_saldo_final valor st
        else st)
  else st.

Definition ciclo : list row -> locals -> result locals := percorrer corpo.

Definition resolver (st : locals) : locals :=
  if (saldo_final st =? 0)%float
  then set_saldo_final
         (saldo_anterior st + total_receitas st - total_despesas st)%float
         st
  else st.

(** The [balanco_data] dict. *)
Definition balanco_data (st : locals) : gmap string float :=
  {[ "saldo_anterior"%string := saldo_anterior st;
     "total_receitas"%string := total_receitas st;
     "total_despesas"%string := total_despesas st;
     "saldo_corrente"%string := (total_receitas st - total_despesas st)%float;
     "saldo_final"%string := saldo_final st ]}.

(** The keyword arguments of [render_template]. *)
Record contexto : Type := Contexto {
  rec_n_fracoes : gmap pystr (list float);
  rec_e_fracoes : gmap pystr (list float);
  despesas_mensais : list pyval;
  balanco : gmap string float
}.

Definition calcular (fs : source) : result contexto :=
  let receitas_n := ler_dbf fs "ReceitasN.dbf" in
  let receitas_e := ler_dbf fs "ReceitasE.dbf" in
  let despesas := ler_dbf fs "Despesas.dbf" in
  let balanco_dbf := ler_dbf fs "Balanco.dbf" in
  rn ← fracoes receitas_n ∅;
  re ← fracoes receitas_e ∅;
  dm ← despesas_mensais_de despesas;
  st ← ciclo balanco_dbf inicio;
  mret (Contexto rn re dm (balanco_data (resolver st))).

(** The payload of the [except] branch. *)
Definition contexto_vazio : contexto := Contexto ∅ ∅ [] ∅.

Definition view (fs : source) : contexto :=
  try_except (calcular fs) contexto_vazio.

Definition regras : list rule :=
  [ (fun l => py_in TSA (conta l), PreviousBalance);
    (fun l => str_eq (tipo l) SUBTOTAL && py_in SALDO (conta l)
              && py_in ANTERIOR (conta l), PreviousBalance);
    (fun l => str_eq (tipo l) SUBTOTAL && py_in RECEITAS (conta l),
     TotalIncome);
    (fun l => str_eq (tipo l) SUBTOTAL && py_in DESPESAS (conta l),
     TotalExpense);
    (fun l => str_eq (tipo l) SALDO && py_in FINAL (conta l),
     FinalBalance);
    (fun l => str_eq (tipo l) TOTAL && str_eq (conta l) TOTAL,
     FinalBalanceCandidate) ].

Definition classify : linha_lida -> category := first_match regras.

End Dashboard.

(** ** [balanco]: the balance sheet *)

Module Balanco.

(** An entry of [despesas_lista]: [{'nome': ..., 'valor': ...}]. *)
Record despesa : Type := Despesa {
  d_nome : pystr;
  d_valor : float
}.

Record locais : Type := Locais {
  despesas_lista : list despesa;
  total_despesas : float;
  total_receitas : float;
  quotas_normais : float;
  quotas_extras : float;
  juros : float;
  saldo_anterior_total : float;
  deposito_ordem : float;
  numerario_caixa : float;
  saldo_final : float
}.

Definition inicio : locais := Locais [] 0 0 0 0 0 0 0 0 0.

Definition append_despesa (d : despesa) (st : locais) : locais :=
  Locais (despesas_lista st ++ [d]) (total_despesas st) (total_receitas st)
    (quotas_normais st) (quotas_extras st) (juros st)
    (saldo_anterior_total st) (deposito_ordem st) (numerario_caixa st)
    (saldo_final st).
Definition set_total_despesas (v : float) (st : locais) : locais :=
  Locais (despesas_lista st) v (total_receitas st)
    (quotas_normais st) (quotas_extras st) (juros st)
    (saldo_anterior_total st) (deposito_ordem st) (numerario_caixa st)
    (saldo_final st).
Definition set_total_receitas (v : float) (st : locais) : locais :=
  Locais (despesas_lista st) (total_despesas st) v
    (quotas_normais st) (quotas_extras st) (juros st)
    (saldo_anterior_total st) (deposito_ordem st) (numerario_caixa st)
    (saldo_final st).
Definition set_quotas_normais (v : float) (st : locais) : locais :=
  Locais (despesas_lista st) (total_despesas st) (total_receitas st)
    v (quotas_extras st) (juros st)
    (saldo_anterior_total st) (deposito_ordem st) (numerario_caixa st)
    (saldo_final st).
Definition set_quotas_extras (v : float) (st : locais) : locais :=
  Locais (despesas_lista st) (total_despesas st) (total_receitas st)
    (quotas_normais st) v (juros st)
    (saldo_anterior_total st) (deposito_ordem st) (numerario_caixa st)
    (saldo_final st).
Definition set_juros (v : float) (st : locais) : locais :=
  Locais (despesas_lista st) (total_despesas st) (total_receitas st)
    (quotas_normais st) (quotas_extras st) v
    (saldo_anterior_total st) (deposito_ordem st) (numerario_caixa st)
    (saldo_final st).
Definition set_saldo_anterior_total (v : float) (st : locais) : locais :=
  Locais (despesas_lista st) (total_despesas st) (total_receitas st)
    (quotas_normais st) (quotas_extras st) (juros st)
    v (deposito_ordem st) (numerario_caixa st)
    (saldo_final st).
Definition set_deposito_ordem (v : float) (st : locais) : locais :=
  Locais (despesas_lista st) (total_despesas st) (total_receitas st)
    (quotas_normais st) (quotas_extras st) (juros st)
    (saldo_anterior_total st) v (numerario_caixa st)
    (saldo_final st).
Definition set_numerario_caixa (v : float) (st : locais) : locais :=
  Locais (despesas_lista st) (total_despesas st) (total_receitas st)
    (quotas_normais st) (quotas_extras st) (juros st)
    (saldo_anterior_total st) (deposito_ordem st) v
    (saldo_final st).
Definition set_saldo_final (v : float) (st : locais) : locais :=
  Locais (despesas_lista st) (total_despesas st) (total_receitas st)
    (quotas_normais st) (quotas_extras st) (juros st)
    (saldo_anterior_total st) (deposito_ordem st) (numerario_caixa st)
    v.

(** The [if]/[elif] chain of the loop body; the [DESPESA] test is the
    first one. *)
Definition corpo (l : linha_lida) (st : locais) : locais :=
  let conta := conta l in
  let tipo := tipo l in
  let valor := valor l in
  if str_eq tipo DESPESA
  then append_despesa (Despesa (nome l) valor) st
  else if py_in TSA conta then set_saldo_anterior_total valor st
  else if str_eq tipo SUBTOTAL && py_in SALDO conta && py_in ANTERIOR conta
  then set_saldo_anterior_total valor st
  else if py_in DEPOSITO_ORDEM_acento conta || py_in DEPOSITO_ORDEM conta
  then set_deposito_ordem valor st
  else if py_in NUMERARIO_CAIXA_acento conta || py_in NUMERARIO_CAIXA conta
  then set_numerario_caixa valor st
  else if str_eq tipo SUBTOTAL && py_in DESPESAS conta
  then set_total_despesas valor st
  else if py_in QUOTAS_NORMAIS conta then set_quotas_normais valor st
  else if py_in QUOTAS_EXTRAS conta then set_quotas_extras valor st
  else if py_in JUROS conta && str_eq tipo RECEITA then set_juros valor st
  else if str_eq tipo SUBTOTAL && py_in RECEITAS conta
  then set_total_receitas valor st
  else if str_eq tipo SALDO && py_in FINAL conta
  then set_saldo_final valor st
  else st.

Definition ciclo : list row -> locais -> result locais := percorrer corpo.

(** The [saldo_anterior] and [receitas_detalhes] dicts. *)
Record saldo_anterior_d : Type := SaldoAnterior {
  sa_deposito_poupanca : float;
  sa_deposito_ordem : float;
  sa_numerario_caixa : float;
  sa_total : float
}.

Record receitas_d : Type := Receitas {
  r_quotas_normais : float;
  r_quotas_extras : float;
  r_juros : float;
  r_total : float
}.

(** The keyword arguments of [render_template]. *)
Record contexto : Type := Contexto {
  c_despesas : list despesa;
  c_total_despesas : float;
  c_saldo_anterior : saldo_anterior_d;
  c_receitas : receitas_d;
  c_saldo_final : float;
  c_total_debitos : float;
  c_total_creditos : float
}.

(** Everything after the loop: the two dicts and the final sums. *)
Definition resolver (st : locais) : contexto :=
  let saldo_anterior :=
    SaldoAnterior 0 (deposito_ordem st) (numerario_caixa st)
      (saldo_anterior_total st) in
  let receitas_detalhes :=
    Receitas (quotas_normais st) (quotas_extras st) (juros st)
      (total_receitas st) in
  let total_creditos :=
    (sa_total saldo_anterior + r_total receitas_detalhes)%float in
  let saldo_final' :=
    if (saldo_final st =? 0)%float
    then (total_creditos - total_despesas st)%float
    else saldo_final st in
  let total_debitos := (total_despesas st + saldo_final')%float in
  Contexto (despesas_lista st) (total_despesas st) saldo_anterior
    receitas_detalhes saldo_final' total_debitos total_creditos.

Definition calcular (balanco_dbf : list row) : result contexto :=
  resolver <$> ciclo balanco_dbf inicio.

(** The view has no [try]: an exception leaves it. *)
Definition view (fs : source) : result contexto :=
  calcular (ler_dbf fs "Balanco.dbf").

Definition regras : list rule :=
  [ (fun l => str_eq (tipo l) DESPESA, ExpenseItem);
    (fun l => py_in TSA (conta l), PreviousBalance);
    (fun l => str_eq (tipo l) SUBTOTAL && py_in SALDO (conta l)
              && py_in ANTERIOR (conta l), PreviousBalance);
    (fun l => py_in DEPOSITO_ORDEM_acento (conta l)
              || py_in DEPOSITO_ORDEM (conta l), DepositOrdem);
    (fun l => py_in NUMERARIO_CAIXA_acento (conta l)
              || py_in NUMERARIO_CAIXA (conta l), NumerarioCaixa);
    (fun l => str_eq (tipo l) SUBTOTAL && py_in DESPESAS (conta l),
     TotalExpense);
    (fun l => py_in QUOTAS_NORMAIS (conta l), QuotasNormais);
    (fun l => py_in QUOTAS_EXTRAS (conta l), QuotasExtras);
    (fun l => py_in JUROS (conta l) && str_eq (tipo l) RECEITA, Juros);
    (fun l => str_eq (tipo l) SUBTOTAL && py_in RECEITAS (conta l),
     TotalIncome);
    (fun l => str_eq (tipo l) SALDO && py_in FINAL (conta l),
     FinalBalance) ].

Definition classify : linha_lida -> category := first_match regras.

Definition accumulate (c : category) (l : linha_lida) (st : locais)
  : locais :=
  match c with
  | ExpenseItem => append_despesa (Despesa (nome l) (valor l)) st
  | PreviousBalance => set_saldo_anterior_total (valor l) st
  | DepositOrdem => set_deposito_ordem (valor l) st
  | NumerarioCaixa => set_numerario_caixa (valor l) st
  | TotalExpense => set_total_despesas (valor l) st
  | QuotasNormais => set_quotas_normais (valor l) st
  | QuotasExtras => set_quotas_extras (valor l) st
  | Juros => set_juros (valor l) st
  | TotalIncome => set_total_receitas (valor l) st
  | FinalBalance => set_saldo_final (valor l) st
  | FinalBalanceCandidate | Unclassified => st
  end.

End Balanco.

(** ** The three views, under the names of their functions *)

Definition index : source -> Index.resumo := Index.view.
Definition dashboard : source -> Dashboard.contexto := Dashboard.view.
Definition balanco : source -> result Balanco.contexto := Balanco.view.

(** ** Example rows *)

(** A row of [Balanco.dbf] with its three fields. *)
Definition linha_balanco (c t : pystr) (v : pyval) : row :=
  {[ "conta"%string := PyStr c; "tipo"%string := PyStr t;
     "valor"%string := v ]}.

(** A folder that only holds [Balanco.dbf]. *)
Definition so_balanco (linhas : list row) : source :=
  fun nome => if String.eqb nome "Balanco.dbf" then Some linhas else None.

(** A number as a numeric field gives it: an [int], or a [float]. *)
Definition campo_numerico (como_float : bool) (z : Z) : pyval :=
  if como_float then PyFloat (SF2Prim (binary_normalize prec emax z 0 false))
  else PyInt z.

Definition linhas_identidade (como_float : bool) : list row :=
  [ linha_balanco (u "TSA") (u "SUBTOTAL") (campo_numerico como_float 100);
    linha_balanco (u "TOTAL RECEITAS") (u "TOTAL")
      (campo_numerico como_float 50);
    linha_balanco (u "TOTAL DESPESAS") (u "TOTAL")
      (campo_numerico como_float 30) ].

(** A row whose amount is text that is not a number. *)
Definition linha_abc : row :=
  linha_balanco (u "QUOTAS") (u "RECEITA") (PyStr (u "abc")).

(** Two generic [TOTAL]/[TOTAL] rows, and two income rows. *)
Definition linha_total (v : Z) : row :=
  linha_balanco (u "TOTAL") (u "TOTAL") (PyInt v).
Definition linha_receitas (v : Z) : row :=
  linha_balanco (u "RECEITAS") (u "SUBTOTAL") (PyInt v).

(** The variable a category is stored in, in [index] and [dashboard]. *)
Definition slot (c : category) (st : locals) : float :=
  match c with
  | PreviousBalance => saldo_anterior st
  | TotalIncome => total_receitas st
  | TotalExpense => total_despesas st
  | _ => saldo_final st
  end.

(** The variable a category is stored in, in [balanco] (the expense items
    go to the list instead). *)
Definition slot_balanco (c : category) (st : Balanco.locais) : float :=
  match c with
  | PreviousBalance => Balanco.saldo_anterior_total st
  | DepositOrdem => Balanco.deposito_ordem st
  | NumerarioCaixa => Balanco.numerario_caixa st
  | TotalExpense => Balanco.total_despesas st
  | QuotasNormais => Balanco.quotas_normais st
  | QuotasExtras => Balanco.quotas_extras st
  | Juros => Balanco.juros st
  | TotalIncome => Balanco.total_receitas st
  | _ => Balanco.saldo_final st
  end.

(** The categories that [balanco] keeps in a variable. *)
Definition tem_slot_balanco (c : category) : bool :=
  match c with
  | ExpenseItem | FinalBalanceCandidate | Unclassified => false
  | _ => true
  end.

(** A previous balance of 0.1 against expenses of 1000000. *)
Definition linhas_arredondamento : list row :=
  [ linha_balanco (u "TSA") (u "SUBTOTAL") (PyFloat 0.1);
    linha_balanco (u "DESPESAS") (u "SUBTOTAL") (PyInt 1000000) ].

(** The entry of [despesas_lista] that a row gives. *)
Definition entrada (l : linha_lida) : Balanco.despesa :=
  Balanco.Despesa (nome l) (valor l).

(** A folder with no readable table. *)
Definition pasta_vazia : source := fun _ => None.

(** The label of a row of [ReceitasN.dbf] or [ReceitasE.dbf], and of a row
    of [Despesas.dbf]. *)
Definition fraccao_de (linha : row) : result pystr :=
  py_strip (get linha "fraccao" (PyStr [])).
Definition despesas_de (linha : row) : result pystr :=
  py_strip (get linha "despesas" (PyStr [])).

(** The test [fracao and fracao.upper() != 'TOTAIS']. *)
Definition entra (fracao : pystr) : bool :=
  truthy (PyStr fracao) && negb (str_eq (upper fracao) TOTAIS).

(** The test [....strip().upper() == 'TOTAIS'] on a row of [Despesas.dbf]. *)
Definition linha_totais (linha : row) : result bool :=
  (fun d => str_eq (upper d) TOTAIS) <$> despesas_de linha.

(** A row of an income table: its label and its January value. *)
Definition linha_fraccao (f : pystr) (jan : pyval) : row :=
  {[ "fraccao"%string := PyStr f; "jan"%string := jan ]}.

(** A folder that only holds [ReceitasN.dbf]. *)
Definition so_receitas_n (linhas : list row) : source :=
  fun nome => if String.eqb nome "ReceitasN.dbf" then Some linhas else None.

(** ** The list views: [receitas_normais], [receitas_extraordinarias],
    [despesas], and [bancos] *)

(** [v is None or v == 0]: [False == 0] holds in Python, and so does
    [-0.0 == 0]; a text or a date never equals [0]. *)
Definition none_ou_zero (v : pyval) : bool :=
  match v with
  | PyNone => true
  | PyBool b => negb b
  | PyInt z => z =? 0
  | PyFloat f => (f =? 0)%float
  | PyStr _ => false
  | PyDate _ _ _ => false
  end.

(** What the inner loop leaves in a field that held [v]. *)
Definition limpa (v : pyval) : pyval :=
  if none_ou_zero v then PyNone else v.

(** One turn of the inner loop:
    [if linha[campo] is None or linha[campo] == 0: linha[campo] = None].
    ([campo] is a key of the row, so the lookup finds it.) *)
Definition limpar_campo (linha : row) (campo : string) : row :=
  match linha !! campo with
  | Some v => if none_ou_zero v then <[campo := PyNone]> linha else linha
  | None => linha
  end.

(** [for campo in linha.keys(): ...], the keys being given in the order
    the dict has them. *)
Definition limpar_campos (campos : list string) (linha : row) : row :=
  foldl limpar_campo linha campos.

(** The loop over the keys of the row itself (the finite map keeps no
    insertion order: its keys are taken in the order of the map). *)
Definition limpar_linha (linha : row) : row :=
  limpar_campos (elements (dom linha)) linha.

(** [for linha in dados: ...] *)
Definition limpar (dados : list row) : list row := limpar_linha <$> dados.

Definition receitas_normais (fs : source) : list row :=
  limpar (ler_dbf fs "ReceitasN.dbf").

Definition receitas_extraordinarias (fs : source) : list row :=
  limpar (ler_dbf fs "ReceitasE.dbf").

Definition despesas (fs : source) : list row :=
  limpar (ler_dbf fs "Despesas.dbf").

(** [bancos] hands the rows of [Bancos.dbf] to its template as they are
    ([ler_dbf] raises nothing, so neither [except] branch is taken). *)
Definition bancos (fs : source) : list row := ler_dbf fs "Bancos.dbf".

(** ** [api_test_movimentos]

    [caminho] is the path of [Bancos.dbf] and [existe] is
    [os.path.exists].  The answer is either the "not found" dict or the
    structure dict; [campos] is kept as the set of the field names of the
    first row. *)
Inductive resposta_teste : Type :=
| NaoEncontrado (caminho : string)
| Estrutura (caminho : string) (total_registos : nat)
    (campos : gset string) (primeiros_3_registos : list row).

Definition api_test_movimentos (caminho : string) (existe : string -> bool)
    (fs : source) : resposta_teste :=
  if negb (existe caminho) then NaoEncontrado caminho
  else
    let dados := ler_dbf fs "Bancos.dbf" in
    Estrutura caminho (length dados)
      (match dados with
       | d0 :: _ => dom d0
       | [] => ∅
       end)
      (if (3 <=? length dados)%nat then take 3 dados else dados).

(** ** Comparing the chains *)


(** The four figures that [balanco] shares with [dashboard]. *)
Definition figuras (st : Balanco.locais) : locals :=
  Locals (Balanco.total_receitas st) (Balanco.total_despesas st)
    (Balanco.saldo_anterior_total st) (Balanco.saldo_final st).

(** The rows that [balanco] and [dashboard] do not treat alike: an
    expense item, a label with one of the markers that only [balanco]
    looks for, the generic [TOTAL]/[TOTAL] row that only [dashboard] takes,
    and a [SUBTOTAL] whose label has both [RECEITAS] and [DESPESAS] (the two
    chains test them in opposite orders). *)
Definition so_de_uma_vista (l : linha_lida) : bool :=
  str_eq (tipo l) DESPESA
  || py_in DEPOSITO_ORDEM_acento (conta l) || py_in DEPOSITO_ORDEM (conta l)
  || py_in NUMERARIO_CAIXA_acento (conta l)
  || py_in NUMERARIO_CAIXA (conta l)
  || py_in QUOTAS_NORMAIS (conta l) || py_in QUOTAS_EXTRAS (conta l)
  || py_in JUROS (conta l) && str_eq (tipo l) RECEITA
  || str_eq (tipo l) TOTAL && str_eq (conta l) TOTAL
  || str_eq (tipo l) SUBTOTAL && py_in RECEITAS (conta l)
     && py_in DESPESAS (conta l).

(** A row with no final balance of its own, in [index] or [dashboard]. *)
Definition sem_saldo_final (c : category) : bool :=
  match c with
  | FinalBalance | FinalBalanceCandidate => false
  | _ => true
  end.

(** * Properties *)

(** ** The error monad *)

Lemma fmap_Ok {A B} (f : A -> B) (m : result A) (b : B) :
  f <$> m = Ok b <-> exists a, m = Ok a /\ b = f a.
Proof.
  destruct m as [a|e]; simpl; split.
  - intros [= <-]. by exists a.
  - by intros (a' & [= <-] & ->).
  - discriminate.
  - by intros (a' & [=] & _).
Qed.

Lemma bind_Ok {A B} (f : A -> result B) (m : result A) (b : B) :
  m ≫= f = Ok b <-> exists a, m = Ok a /\ f a = Ok b.
Proof.
  destruct m as [a|e]; simpl; split.
  - intros H. by exists a.
  - by intros (a' & [= <-] & H).
  - discriminate.
  - by intros (a' & [=] & _).
Qed.

Lemma try_except_raises {A} (m : result A) (d : A) :
  raises m = true -> try_except m d = d.
Proof. by destruct m. Qed.

Lemma map_result_app {A B} (f : A -> result B) (l1 l2 : list A) :
  map_result f (l1 ++ l2) =
  k1 ← map_result f l1; k2 ← map_result f l2; mret (k1 ++ k2).
Proof.
  induction l1 as [|x l1 IH]; simpl.
  - by destruct (map_result f l2).
  - destruct (f x) as [y|e]; simpl; [|done].
    rewrite IH. destruct (map_result f l1) as [k1|e]; simpl; [|done].
    by destruct (map_result f l2).
Qed.

Lemma map_result_length {A B} (f : A -> result B) (l : list A) k :
  map_result f l = Ok k -> length k = length l.
Proof.
  revert k. induction l as [|x l IH]; simpl; intros k.
  - by intros [= <-].
  - destruct (f x) as [y|e]; simpl; [|done].
    destruct (map_result f l) as [k'|e]; simpl; [|done].
    intros [= <-]. simpl. f_equal. by apply IH.
Qed.

Lemma map_result_lookup {A B} (f : A -> result B) (l : list A) k i x :
  map_result f l = Ok k -> l !! i = Some x ->
  exists y, f x = Ok y /\ k !! i = Some y.
Proof.
  revert k i. induction l as [|a l IH]; simpl; intros k i; [done|].
  destruct (f a) as [y|e] eqn:Hfa; simpl; [|done].
  destruct (map_result f l) as [k'|e]; simpl; [|done].
  intros [= <-]. destruct i as [|i]; simpl.
  - intros [= <-]. by exists y.
  - intros Hi. by apply IH.
Qed.

(** ** The loop is: read every row, then run the chain over what was read *)

Lemma percorrer_agregar {S : Type} (corpo : linha_lida -> S -> S)
    (linhas : list row) (st : S) :
  percorrer corpo linhas st =
  (fun ls => agregar corpo ls st) <$> map_result ler_linha linhas.
Proof.
  revert st. induction linhas as [|linha resto IH]; intros st; simpl.
  - done.
  - destruct (ler_linha linha) as [l|e]; simpl; [|done].
    rewrite IH. by destruct (map_result ler_linha resto).
Qed.

Lemma agregar_app {S : Type} (corpo : linha_lida -> S -> S) ls1 ls2 st :
  agregar corpo (ls1 ++ ls2) st = agregar corpo ls2 (agregar corpo ls1 st).
Proof. apply fold_left_app. Qed.

(** C1, as stated, fails on the balance-sheet view, the only one that
    computes total credits and debits: there the two [TOTAL]-typed rows
    match no rule, and credits are 100, not 150. *)
Lemma identidade_balanco_counterexample :
  ~ (exists ctx, Balanco.view (so_balanco (linhas_identidade false)) = Ok ctx
       /\ Balanco.sa_total (Balanco.c_saldo_anterior ctx) = 100%float
       /\ Balanco.r_total (Balanco.c_receitas ctx) = 50%float
       /\ Balanco.c_total_despesas ctx = 30%float
       /\ Balanco.c_saldo_final ctx = 120%float
       /\ Balanco.c_total_creditos ctx = 150%float
       /\ Balanco.c_total_debitos ctx = 150%float).
Proof.
  intros (ctx & Hctx & _ & _ & _ & _ & Hcred & _).
  vm_compute in Hctx. injection Hctx as <-. vm_compute in Hcred.
  discriminate Hcred.
Qed.

(** C1 (amended): on the three example rows, [index] yields previous
    balance 100, income 50, expense 30 and final balance 120, shown as
    100.00, 50.00, 30.00 and 120.00.  It computes no totals of credits and
    debits; over its four figures, previous balance + income and expense +
    final balance are both 150. *)
Theorem identidade_no_index (como_float : bool) :
  let linhas := linhas_identidade como_float in
  Index.calcular linhas = Ok (Locals 50 30 100 120)
  /\ Index.view (so_balanco linhas) =
     Index.Resumo "50.00" "30.00" "100.00" "120.00"
  /\ (forall st, Index.calcular linhas = Ok st ->
        (saldo_anterior st + total_receitas st = 150
         /\ total_despesas st + saldo_final st = 150)%float).
Proof.
  destruct como_float; (split; [|split]); try (vm_compute; reflexivity).
  all: intros st Hst; vm_compute in Hst; injection Hst as <-.
  all: vm_compute; done.
Qed.

(** On the same rows, the figures of [balanco]. *)
Example identidade_no_balanco (como_float : bool) :
  Balanco.view (so_balanco (linhas_identidade como_float)) =
  Ok (Balanco.Contexto [] 0 (Balanco.SaldoAnterior 0 0 0 100)
        (Balanco.Receitas 0 0 0 0) 100 100 100).
Proof. destruct como_float; vm_compute; reflexivity. Qed.

(** ** Classification: each chain is a first-match over its own table *)

Lemma first_match_app (pre post : list rule) (p : linha_lida -> bool)
    (c : category) (l : linha_lida) :
  Forall (fun r => r.1 l = false) pre -> p l = true ->
  first_match (pre ++ (p, c) :: post) l = c.
Proof.
  induction 1 as [|[q d] pre Hq _ IH]; intros Hp; simpl in *.
  - by rewrite Hp.
  - rewrite Hq. by apply IH.
Qed.

Ltac casos_da_cadeia :=
  repeat match goal with
         | |- context [if ?b then _ else _] => destruct b eqn:?
         end;
  try reflexivity; try discriminate;
  try (unfold accumulate;
       match goal with
       | H : (saldo_final _ =? 0)%float = _ |- _ => rewrite H
       end; reflexivity).

Lemma index_corpo_classify (l : linha_lida) (st : locals) :
  Index.corpo l st = accumulate (Index.classify l) (valor l) st.
Proof.
  unfold Index.corpo, Index.classify, Index.regras.
  cbn [first_match]. casos_da_cadeia.
Qed.

Lemma dashboard_corpo_classify (l : linha_lida) (st : locals) :
  Dashboard.corpo l st = accumulate (Dashboard.classify l) (valor l) st.
Proof.
  unfold Dashboard.corpo, Dashboard.classify, Dashboard.regras.
  cbn [first_match]. casos_da_cadeia.
Qed.

Lemma balanco_corpo_classify (l : linha_lida) (st : Balanco.locais) :
  Balanco.corpo l st = Balanco.accumulate (Balanco.classify l) l st.
Proof.
  unfold Balanco.corpo, Balanco.classify, Balanco.regras.
  cbn [first_match]. casos_da_cadeia.
Qed.

Lemma balanco_classify_despesa (l : linha_lida) :
  Balanco.classify l = ExpenseItem <-> tipo l = DESPESA.
Proof.
  unfold Balanco.classify, Balanco.regras, str_eq.
  cbn [first_match]. split.
  - destruct (bool_decide (tipo l = DESPESA)) eqn:Hd.
    + intros _. by apply bool_decide_eq_true in Hd.
    + casos_da_cadeia.
  - intros ->. by rewrite bool_decide_eq_true_2.
Qed.

(** C2, as stated, fails on [balanco], the only view with an expense-item
    rule: its chain tests the type [DESPESA] before the marker [TSA], so a
    [DESPESA] row labelled [TSA] is listed as an expense and the previous
    balance stays [0.0]. *)
Lemma despesa_tsa_counterexample :
  let l := LinhaLida (u "TSA") (u "TSA") (u "DESPESA") 5 in
  Balanco.classify l = ExpenseItem
  /\ Balanco.classify l <> PreviousBalance
  /\ Balanco.view
       (so_balanco [linha_balanco (u "TSA") (u "DESPESA") (PyInt 5)]) =
     Ok (Balanco.Contexto [Balanco.Despesa (u "TSA") 5] 0
           (Balanco.SaldoAnterior 0 0 0 0) (Balanco.Receitas 0 0 0 0)
           0 0 0).
Proof. vm_compute. split; [done|]. split; [discriminate|done]. Qed.

(** C2 (amended): every view runs its own chain in the order of its source;
    the chain is a first-match over that view's rule table (the first rule
    that matches wins, and a row gets exactly one category).  In [balanco]
    the [DESPESA] rule is the first one, so a [DESPESA] row is an expense
    item even when its label contains [TSA]; a label containing [TSA] gives
    the previous balance in [index] and [dashboard], and in [balanco] when
    the type is not [DESPESA]. *)
Theorem cadeias_primeira_regra (l : linha_lida) :
  (forall st, Index.corpo l st = accumulate (Index.classify l) (valor l) st)
  /\ (forall st,
        Dashboard.corpo l st = accumulate (Dashboard.classify l) (valor l) st)
  /\ (forall st,
        Balanco.corpo l st = Balanco.accumulate (Balanco.classify l) l st)
  /\ (forall regras pre p c post,
        regras = pre ++ (p, c) :: post ->
        Forall (fun r => r.1 l = false) pre -> p l = true ->
        first_match regras l = c)
  /\ (str_eq (tipo l) DESPESA = true -> Balanco.classify l = ExpenseItem)
  /\ (py_in TSA (conta l) = true ->
      Index.classify l = PreviousBalance
      /\ Dashboard.classify l = PreviousBalance
      /\ (str_eq (tipo l) DESPESA = false ->
          Balanco.classify l = PreviousBalance)).
Proof.
  split; [apply index_corpo_classify|].
  split; [apply dashboard_corpo_classify|].
  split; [apply balanco_corpo_classify|].
  split; [intros ? ? ? ? ? ->; apply first_match_app|].
  split.
  - unfold Balanco.classify, Balanco.regras. cbn [first_match].
    by intros ->.
  - intros Htsa.
    unfold Index.classify, Index.regras, Dashboard.classify, Dashboard.regras,
      Balanco.classify, Balanco.regras.
    cbn [first_match]. rewrite Htsa. split; [done|]. split; [done|]. by intros ->.
Qed.

(** ** Amounts that are absent, empty or not numbers *)

Lemma numero_falsy (linha : row) (campo : string) :
  truthy (get linha campo (PyInt 0)) = false ->
  numero linha campo = Ok 0%float.
Proof. unfold numero, py_or. by intros ->. Qed.

Lemma ler_linha_raises (linha : row) (e : exn) :
  numero linha "valor" = Raise e -> raises (ler_linha linha) = true.
Proof.
  intros H. unfold ler_linha.
  destruct (py_strip (get linha "conta" (PyStr []))); simpl; [|done].
  destruct (py_strip (get linha "tipo" (PyStr []))); simpl; [|done].
  by rewrite H.
Qed.

Lemma percorrer_raises {S : Type} (corpo : linha_lida -> S -> S)
    (pre post : list row) (linha : row) (st : S) :
  raises (ler_linha linha) = true ->
  raises (percorrer corpo (pre ++ linha :: post) st) = true.
Proof.
  intros H. rewrite percorrer_agregar, map_result_app.
  destruct (map_result ler_linha pre); simpl; [|done].
  by destruct (ler_linha linha).
Qed.

(** C3, as stated, fails for text that is not a number: [float('abc')]
    raises [ValueError] instead of giving [0.0], and [balanco], which has no
    [try], lets the exception reach its caller. *)
Lemma valor_nao_numerico_counterexample :
  numero linha_abc "valor" = Raise ValueError
  /\ numero linha_abc "valor" <> Ok 0%float
  /\ Balanco.view (so_balanco [linha_abc]) = Raise ValueError.
Proof. vm_compute. split; [done|]. split; [discriminate|done]. Qed.

(** C3 (amended): an amount field that is absent, [None] or any other
    false value ([0], [0.0], the empty text, [False]) is read as [0.0] and
    no error is raised.  Text that [float] does not accept raises
    [ValueError]; when that happens in a row of [Balanco.dbf], [index]
    catches it and shows its all-zero summary, and [dashboard] catches it
    and renders its empty payload. *)
Theorem valor_em_falta_e_zero (linha : row) (campo : string) :
  (linha !! campo = None -> numero linha campo = Ok 0%float)
  /\ (linha !! campo = Some PyNone -> numero linha campo = Ok 0%float)
  /\ (forall v, linha !! campo = Some v -> truthy v = false ->
        numero linha campo = Ok 0%float)
  /\ (forall s, linha !! campo = Some (PyStr s) -> s <> [] ->
        float_of_str s = None -> numero linha campo = Raise ValueError)
  /\ (forall fs pre post e,
        ler_dbf fs "Balanco.dbf" = pre ++ linha :: post ->
        numero linha "valor" = Raise e ->
        Index.view fs = Index.resumo_zero
        /\ Dashboard.view fs = Dashboard.contexto_vazio).
Proof.
  split; [|split; [|split; [|split]]].
  - intros H. apply numero_falsy. unfold get. by rewrite H.
  - intros H. apply numero_falsy. unfold get. by rewrite H.
  - intros v H Hv. apply numero_falsy. unfold get. by rewrite H.
  - intros s H Hs Hf. unfold numero, py_or, get. rewrite H. simpl.
    rewrite bool_decide_eq_false_2 by done. simpl. by rewrite Hf.
  - intros fs pre post e Hfs He.
    pose proof (ler_linha_raises _ _ He) as Hr. split.
    + apply try_except_raises. unfold Index.calcular, Index.ciclo.
      rewrite Hfs.
      pose proof (percorrer_raises Index.corpo pre post linha inicio Hr).
      by destruct (percorrer Index.corpo (pre ++ linha :: post) inicio).
    + apply try_except_raises. unfold Dashboard.calcular, Dashboard.ciclo.
      rewrite Hfs.
      pose proof (percorrer_raises Dashboard.corpo pre post linha inicio Hr).
      destruct (Dashboard.fracoes (ler_dbf fs "ReceitasN.dbf") ∅); simpl;
        [|done].
      destruct (Dashboard.fracoes (ler_dbf fs "ReceitasE.dbf") ∅); simpl;
        [|done].
      destruct (Dashboard.despesas_mensais_de _); simpl; [|done].
      by destruct (percorrer Dashboard.corpo (pre ++ linha :: post) inicio).
Qed.

(** ** Aggregation in [index]: which row a variable keeps *)

Lemma accumulate_slot (c : category) (v : float) (st : locals) :
  c = PreviousBalance \/ c = TotalIncome \/ c = TotalExpense
  \/ c = FinalBalance ->
  slot c (accumulate c v st) = v.
Proof. by intros [->|[->|[->| ->]]]. Qed.

Lemma accumulate_slot_other (c c' : category) (v : float) (st : locals) :
  c = PreviousBalance \/ c = TotalIncome \/ c = TotalExpense ->
  c' <> c -> slot c (accumulate c' v st) = slot c st.
Proof.
  intros [->|[->| ->]] Hc; destruct c'; try done; simpl;
    by destruct (saldo_final st =? 0)%float.
Qed.

Lemma index_agregar_keeps (c : category) (post : list linha_lida)
    (st : locals) :
  c = PreviousBalance \/ c = TotalIncome \/ c = TotalExpense ->
  Forall (fun l' => Index.classify l' <> c) post ->
  slot c (agregar Index.corpo post st) = slot c st.
Proof.
  intros Hc Hpost. revert st.
  induction Hpost as [|l' post Hl' _ IH]; intros st; simpl; [done|].
  rewrite IH, index_corpo_classify. by apply accumulate_slot_other.
Qed.

(** A final balance that is not [0.0] is only replaced by a [SALDO]/[FINAL]
    row. *)
Lemma index_agregar_keeps_final (post : list linha_lida) (st : locals) :
  (saldo_final st =? 0)%float = false ->
  Forall (fun l' => Index.classify l' <> FinalBalance) post ->
  saldo_final (agregar Index.corpo post st) = saldo_final st.
Proof.
  intros Hst Hpost. revert st Hst.
  induction Hpost as [|l' post Hl' _ IH]; intros st Hst; simpl; [done|].
  assert (saldo_final (Index.corpo l' st) = saldo_final st) as Heq.
  { rewrite index_corpo_classify.
    destruct (Index.classify l'); try done. simpl. by rewrite Hst. }
  rewrite IH; [done|]. by rewrite Heq.
Qed.

(** While only zero-valued generic rows were seen, the final balance is
    still [0.0]. *)
Lemma index_agregar_still_zero (pre : list linha_lida) (st : locals) :
  (saldo_final st =? 0)%float = true ->
  Forall (fun l' => Index.classify l' <> FinalBalance) pre ->
  Forall (fun l' => Index.classify l' = FinalBalanceCandidate ->
                    (valor l' =? 0)%float = true) pre ->
  (saldo_final (agregar Index.corpo pre st) =? 0)%float = true.
Proof.
  intros Hst Hpre. revert st Hst.
  induction Hpre as [|l' pre Hl' _ IH]; intros st Hst Hz; simpl; [done|].
  inversion Hz as [|? ? Hz1 Hz2]; subst.
  apply IH; [|done].
  rewrite index_corpo_classify.
  destruct (Index.classify l') eqn:Hc; try done. simpl.
  rewrite Hst. simpl. by apply Hz1.
Qed.

Lemma index_resolver_slot (c : category) (st : locals) :
  c = PreviousBalance \/ c = TotalIncome \/ c = TotalExpense ->
  slot c (Index.resolver st) = slot c st.
Proof.
  intros [->|[->| ->]]; unfold Index.resolver;
    by destruct (saldo_final st =? 0)%float.
Qed.

Lemma index_resolver_final (st : locals) :
  (saldo_final st =? 0)%float = false ->
  saldo_final (Index.resolver st) = saldo_final st.
Proof. unfold Index.resolver. by intros ->. Qed.

Lemma balanco_agregar_keeps (c : category) (post : list linha_lida)
    (st : Balanco.locais) :
  tem_slot_balanco c = true ->
  Forall (fun l' => Balanco.classify l' <> c) post ->
  slot_balanco c (agregar Balanco.corpo post st) = slot_balanco c st.
Proof.
  intros Hc Hpost. revert st.
  induction Hpost as [|l' post Hl' _ IH]; intros st; simpl; [done|].
  rewrite IH, balanco_corpo_classify.
  destruct c; try done; by destruct (Balanco.classify l').
Qed.

Lemma balanco_accumulate_slot (c : category) (l : linha_lida)
    (st : Balanco.locais) :
  tem_slot_balanco c = true ->
  slot_balanco c (Balanco.accumulate c l st) = valor l.
Proof. by destruct c. Qed.

(** C4, as stated, fails when the first generic [TOTAL]/[TOTAL] row is
    worth [0]: the final balance is then still unset, and the second row,
    worth 20, is the one that is kept. *)
Lemma primeiro_total_zero_counterexample :
  Index.calcular [linha_total 0; linha_total 20] = Ok (Locals 0 0 0 20)
  /\ saldo_final <$> Index.calcular [linha_total 0; linha_total 20]
     <> Ok 0%float.
Proof. vm_compute. split; [done|discriminate]. Qed.

(** C4 (amended): a variable is overwritten, never summed.  In [index],
    for the previous balance, the income total and the expense total, the
    last row of that category is the one kept (50 then 80 gives 80).  A
    [SALDO]/[FINAL] row that is not worth [0.0] is kept unless another
    [SALDO]/[FINAL] row follows.  Among generic [TOTAL]/[TOTAL] rows, with no
    [SALDO]/[FINAL] row in the table, the first one whose value is not
    [0.0] is kept (10 then 20 gives 10).  In [balanco] every variable keeps,
    at the end of the loop, the last row of its category. *)
Theorem variaveis_sobrescritas (linhas : list row)
    (pre post : list linha_lida) (l : linha_lida) :
  map_result ler_linha linhas = Ok (pre ++ l :: post) ->
  (exists st, Index.calcular linhas = Ok st
     /\ (forall c,
           c = PreviousBalance \/ c = TotalIncome \/ c = TotalExpense ->
           Index.classify l = c ->
           Forall (fun l' => Index.classify l' <> c) post ->
           slot c st = valor l)
     /\ (Index.classify l = FinalBalance ->
         (valor l =? 0)%float = false ->
         Forall (fun l' => Index.classify l' <> FinalBalance) post ->
         saldo_final st = valor l)
     /\ (Index.classify l = FinalBalanceCandidate ->
         (valor l =? 0)%float = false ->
         Forall (fun l' => Index.classify l' <> FinalBalance) (pre ++ post) ->
         Forall (fun l' => Index.classify l' = FinalBalanceCandidate ->
                           (valor l' =? 0)%float = true) pre ->
         saldo_final st = valor l))
  /\ (exists st, percorrer Balanco.corpo linhas Balanco.inicio = Ok st
        /\ forall c,
             tem_slot_balanco c = true ->
             Balanco.classify l = c ->
             Forall (fun l' => Balanco.classify l' <> c) post ->
             slot_balanco c st = valor l).
Proof.
  intros Hler. split.
  - exists (Index.resolver (agregar Index.corpo (pre ++ l :: post) inicio)).
    split.
    { unfold Index.calcular, Index.ciclo.
      by rewrite percorrer_agregar, Hler. }
    rewrite agregar_app. simpl. rewrite index_corpo_classify.
    set (st0 := agregar Index.corpo pre inicio).
    split; [|split].
    + intros c Hc Hl Hpost.
      rewrite index_resolver_slot, index_agregar_keeps by done.
      rewrite Hl. apply accumulate_slot. tauto.
    + intros Hl Hv Hpost. rewrite Hl. simpl.
      rewrite index_resolver_final;
        rewrite index_agregar_keeps_final; done.
    + intros Hl Hv Hfb Hz. rewrite Hl. simpl.
      apply Forall_app in Hfb as [Hpre Hpost].
      assert ((saldo_final st0 =? 0)%float = true) as ->
        by (by apply index_agregar_still_zero).
      rewrite index_resolver_final;
        rewrite index_agregar_keeps_final; done.
  - exists (agregar Balanco.corpo (pre ++ l :: post) Balanco.inicio).
    split; [by rewrite percorrer_agregar, Hler|].
    intros c Hc Hl Hpost. rewrite agregar_app. simpl.
    rewrite balanco_agregar_keeps, balanco_corpo_classify by done.
    rewrite Hl. by apply balanco_accumulate_slot.
Qed.

Lemma variaveis_sobrescritas_witness :
  exists st, Index.calcular [linha_total 10; linha_total 20] = Ok st
    /\ saldo_final st = 10%float.
Proof.
  destruct (variaveis_sobrescritas [linha_total 10; linha_total 20] []
              [LinhaLida TOTAL TOTAL TOTAL 20] (LinhaLida TOTAL TOTAL TOTAL 10)
              eq_refl) as [(st & Hst & _ & _ & Hcand) _].
  exists st. split; [exact Hst|].
  apply Hcand; [reflexivity|reflexivity| |constructor].
  repeat constructor. discriminate.
Defined.

Example index_receitas_50_80 :
  total_receitas <$> Index.calcular [linha_receitas 50; linha_receitas 80]
  = Ok 80%float.
Proof. reflexivity. Qed.

(** ** The final sums *)

(** C5: when the final balance is still [0.0] after the loop it becomes
    previous balance + income - expense; total credits are always previous
    balance + income, and total debits always expense + final balance,
    whether the final balance was read or derived.  [index] and [dashboard]
    apply the same fallback to their four figures. *)
Theorem resolver_identidades :
  (forall st : Balanco.locais,
     let ctx := Balanco.resolver st in
     let previous := Balanco.sa_total (Balanco.c_saldo_anterior ctx) in
     let income := Balanco.r_total (Balanco.c_receitas ctx) in
     let expense := Balanco.c_total_despesas ctx in
     previous = Balanco.saldo_anterior_total st
     /\ income = Balanco.total_receitas st
     /\ expense = Balanco.total_despesas st
     /\ Balanco.c_saldo_final ctx =
        (if (Balanco.saldo_final st =? 0)%float
         then (previous + income - expense)%float
         else Balanco.saldo_final st)
     /\ Balanco.c_total_creditos ctx = (previous + income)%float
     /\ Balanco.c_total_debitos ctx =
        (expense + Balanco.c_saldo_final ctx)%float)
  /\ (forall linhas,
        Balanco.calcular linhas =
        Balanco.resolver <$> percorrer Balanco.corpo linhas Balanco.inicio)
  /\ (forall st : locals,
        Index.resolver st =
        (if (saldo_final st =? 0)%float
         then set_saldo_final
                (saldo_anterior st + total_receitas st - total_despesas st)
                st
         else st)
        /\ Dashboard.resolver st = Index.resolver st)
  /\ (forall linhas,
        Index.calcular linhas =
        Index.resolver <$> percorrer Index.corpo linhas inicio).
Proof.
  split; [|split; [|split]].
  - intros st. unfold Balanco.resolver. simpl.
    by destruct (Balanco.saldo_final st =? 0)%float.
  - reflexivity.
  - intros st. split; reflexivity.
  - reflexivity.
Qed.

(** ** Total debits against total credits *)

Lemma float_sub_zero (c : float) : (c - 0)%float = c.
Proof.
  rewrite <- (SF2Prim_Prim2SF (c - 0)), sub_spec.
  change (Prim2SF 0) with (S754_zero false).
  replace (SF64sub (Prim2SF c) (S754_zero false)) with (Prim2SF c).
  - apply SF2Prim_Prim2SF.
  - by destruct (Prim2SF c) as [[]|[]| |].
Qed.

Lemma float_zero_add (c : float) :
  (0 + c)%float = c \/ (c = neg_zero /\ (0 + c)%float = 0%float).
Proof.
  rewrite <- (SF2Prim_Prim2SF (0 + c)), add_spec.
  change (Prim2SF 0) with (S754_zero false).
  rewrite <- (SF2Prim_Prim2SF c) at 2 3.
  destruct (Prim2SF c) as [[]|[]| |]; simpl; auto.
Qed.

(** C9, as stated, fails in binary64 arithmetic: with a previous balance
    of 0.1 and expenses of 1000000 the final balance is derived, total
    credits are 0.1 and total debits are 0.09999999997671694. *)
Lemma debitos_creditos_counterexample :
  exists ctx, Balanco.calcular linhas_arredondamento = Ok ctx
    /\ (Balanco.saldo_final <$>
          percorrer Balanco.corpo linhas_arredondamento Balanco.inicio)
       = Ok 0%float
    /\ Balanco.c_total_creditos ctx = 0.1%float
    /\ Balanco.c_total_debitos ctx = 0.09999999997671694%float
    /\ (Balanco.c_total_debitos ctx =? Balanco.c_total_creditos ctx)%float
       = false.
Proof. eexists. split; [vm_compute; reflexivity|]. by vm_compute. Qed.

(** C9 (amended): when the final balance is derived by the fallback, total
    debits are the binary64 sum expense + (credits - expense).  That is
    total credits up to the rounding of the subtraction and of the sum: it
    is exactly total credits when the expense total is [0.0] (but for the
    sign of a zero), and on the rows of the balance identity example. *)
Theorem debitos_com_saldo_derivado (linhas : list row)
    (st : Balanco.locais) :
  percorrer Balanco.corpo linhas Balanco.inicio = Ok st ->
  (Balanco.saldo_final st =? 0)%float = true ->
  exists ctx, Balanco.calcular linhas = Ok ctx
    /\ Balanco.c_saldo_final ctx =
       (Balanco.c_total_creditos ctx - Balanco.c_total_despesas ctx)%float
    /\ Balanco.c_total_debitos ctx =
       (Balanco.c_total_despesas ctx
        + (Balanco.c_total_creditos ctx - Balanco.c_total_despesas ctx))%float
    /\ (Balanco.c_total_despesas ctx = 0%float ->
        Balanco.c_total_debitos ctx = Balanco.c_total_creditos ctx
        \/ (Balanco.c_total_creditos ctx = neg_zero
            /\ Balanco.c_total_debitos ctx = 0%float)).
Proof.
  intros Hst Hzero. exists (Balanco.resolver st). split.
  { unfold Balanco.calcular, Balanco.ciclo. by rewrite Hst. }
  unfold Balanco.resolver. simpl. rewrite Hzero.
  split; [done|]. split; [done|].
  intros ->. rewrite float_sub_zero. apply float_zero_add.
Qed.

Lemma debitos_com_saldo_derivado_witness :
  exists ctx, Balanco.calcular (linhas_identidade false) = Ok ctx
    /\ Balanco.c_total_debitos ctx =
       (Balanco.c_total_despesas ctx
        + (Balanco.c_total_creditos ctx - Balanco.c_total_despesas ctx))%float.
Proof.
  destruct (debitos_com_saldo_derivado (linhas_identidade false)
              (Balanco.Locais [] 0 0 0 0 0 100 0 0 0) eq_refl eq_refl)
    as (ctx & Hctx & _ & Hdeb & _).
  exists ctx. split; [exact Hctx|exact Hdeb].
Defined.

Example debitos_creditos_identidade :
  (fun ctx => (Balanco.c_total_debitos ctx, Balanco.c_total_creditos ctx))
  <$> Balanco.calcular (linhas_identidade false)
  = Ok (100%float, 100%float).
Proof. vm_compute. reflexivity. Qed.

(** ** The expense list of [balanco] *)

Lemma balanco_despesas_lista (ls : list linha_lida) (st : Balanco.locais) :
  Balanco.despesas_lista (agregar Balanco.corpo ls st) =
  Balanco.despesas_lista st
  ++ (entrada <$> filter (fun l => Balanco.classify l = ExpenseItem) ls).
Proof.
  revert st. induction ls as [|l ls IH]; intros st; simpl.
  - by rewrite app_nil_r.
  - rewrite IH, balanco_corpo_classify.
    destruct (decide (Balanco.classify l = ExpenseItem)) as [Hl|Hl].
    + rewrite filter_cons_True by done. rewrite Hl. simpl.
      by rewrite <- app_assoc.
    + rewrite filter_cons_False by done.
      by destruct (Balanco.classify l).
Qed.

(** C8: the expense list of [balanco] holds one entry (label, amount) for
    every row classified as an expense item, that is every row of type
    [DESPESA], in the order of the rows; nothing is merged, so a label that
    occurs twice gives two entries.  When a row cannot be read, both sides
    raise the same exception. *)
Theorem despesas_na_ordem (linhas : list row) :
  Balanco.c_despesas <$> Balanco.calcular linhas =
  (fun ls =>
     entrada <$> filter (fun l => Balanco.classify l = ExpenseItem) ls)
  <$> map_result ler_linha linhas
  /\ (forall l, Balanco.classify l = ExpenseItem <-> tipo l = DESPESA)
  /\ (forall linha l, ler_linha linha = Ok l ->
        py_strip (get linha "conta" (PyStr [])) = Ok (nome l)
        /\ upper <$> py_strip (get linha "tipo" (PyStr [])) = Ok (tipo l)
        /\ numero linha "valor" = Ok (valor l)).
Proof.
  split; [|split].
  - unfold Balanco.calcular, Balanco.ciclo. rewrite percorrer_agregar.
    destruct (map_result ler_linha linhas) as [ls|e]; simpl; [|done].
    f_equal. unfold Balanco.resolver. simpl.
    by rewrite balanco_despesas_lista.
  - apply balanco_classify_despesa.
  - intros linha l. unfold ler_linha.
    destruct (py_strip (get linha "conta" (PyStr []))); simpl; [|done].
    destruct (py_strip (get linha "tipo" (PyStr []))); simpl; [|done].
    destruct (numero linha "valor"); simpl; [|done].
    by intros [= <-].
Qed.

Example despesas_repetidas :
  Balanco.c_despesas <$>
    Balanco.calcular
      [ linha_balanco (u " Agua ") (u "despesa") (PyInt 3);
        linha_balanco (u "Luz") (u "DESPESA") (PyInt 2);
        linha_balanco (u "Agua") (u "Despesa ") (PyInt 3) ]
  = Ok [ Balanco.Despesa (u "Agua") 3; Balanco.Despesa (u "Luz") 2;
         Balanco.Despesa (u "Agua") 3 ].
Proof. reflexivity. Qed.

(** C10: whatever the rows, the [deposito_poupanca] entry of the previous
    balance that [balanco] renders is [0.0]. *)
Theorem deposito_poupanca_zero (fs : source) (ctx : Balanco.contexto) :
  Balanco.view fs = Ok ctx ->
  Balanco.sa_deposito_poupanca (Balanco.c_saldo_anterior ctx) = 0%float.
Proof.
  unfold Balanco.view, Balanco.calcular. intros H.
  apply fmap_Ok in H as (st & _ & ->). reflexivity.
Qed.

Lemma deposito_poupanca_zero_witness :
  Balanco.sa_deposito_poupanca
    (Balanco.c_saldo_anterior
       (Balanco.Contexto [] 0 (Balanco.SaldoAnterior 0 0 0 100)
          (Balanco.Receitas 0 0 0 0) 100 100 100)) = 0%float.
Proof.
  apply (deposito_poupanca_zero (so_balanco (linhas_identidade false))).
  reflexivity.
Defined.

(** ** Unavailable and empty tables *)

(** C6: a table that cannot be read counts as an empty one, in every
    view, and no view raises for it.  With no rows at all, [index] shows
    "0.00" four times, [balanco] gives an empty expense list and figures
    that are all [0.0] (shown as "0.00"), and [dashboard] gives two empty
    maps, twelve zeros by month and a balance composition of zeros. *)
Theorem fonte_indisponivel (fs : source) :
  let fs' : source := fun nome => Some (ler_dbf fs nome) in
  (forall nome, fs nome = None -> ler_dbf fs nome = [])
  /\ Index.view fs = Index.view fs'
  /\ Dashboard.view fs = Dashboard.view fs'
  /\ Balanco.view fs = Balanco.view fs'
  /\ (ler_dbf fs "Balanco.dbf" = [] ->
      Index.view fs = Index.Resumo "0.00" "0.00" "0.00" "0.00"
      /\ Balanco.view fs =
         Ok (Balanco.Contexto [] 0 (Balanco.SaldoAnterior 0 0 0 0)
               (Balanco.Receitas 0 0 0 0) 0 0 0))
  /\ ((forall nome, ler_dbf fs nome = []) ->
      Dashboard.view fs =
         Dashboard.Contexto ∅ ∅ (replicate 12 (PyInt 0))
           {[ "saldo_anterior"%string := 0%float;
              "total_receitas"%string := 0%float;
              "total_despesas"%string := 0%float;
              "saldo_corrente"%string := 0%float;
              "saldo_final"%string := 0%float ]}
      /\ fmt2 0 = "0.00"%string).
Proof.
  split; [|split; [|split; [|split; [|split]]]].
  - intros nome H. unfold ler_dbf. by rewrite H.
  - reflexivity.
  - reflexivity.
  - reflexivity.
  - intros H. unfold Index.view, Balanco.view. rewrite H.
    split; vm_compute; reflexivity.
  - intros H. unfold Dashboard.view, Dashboard.calcular.
    rewrite !H. split; vm_compute; reflexivity.
Qed.

Example pasta_vazia_sem_erro :
  Index.view pasta_vazia = Index.resumo_zero
  /\ raises (Balanco.view pasta_vazia) = false
  /\ raises (Dashboard.calcular pasta_vazia) = false.
Proof. vm_compute. done. Qed.

(** ** The monthly series of [dashboard] *)

Lemma serie_length (linha : row) (s : list float) :
  Dashboard.serie linha = Ok s -> length s = 12%nat.
Proof. intros H. by apply map_result_length in H. Qed.

Lemma serie_lookup (linha : row) (s : list float) (i : nat) (mes : string) :
  Dashboard.serie linha = Ok s -> Dashboard.meses !! i = Some mes ->
  exists x, numero linha mes = Ok x /\ s !! i = Some x.
Proof. apply map_result_lookup. Qed.

Lemma fracoes_app (l1 l2 : list row) (acc : gmap pystr (list float)) :
  Dashboard.fracoes (l1 ++ l2) acc =
  Dashboard.fracoes l1 acc ≫= Dashboard.fracoes l2.
Proof.
  revert acc. induction l1 as [|linha l1 IH]; intros acc; simpl; [done|].
  destruct (py_strip (get linha "fraccao" (PyStr []))) as [k|e]; simpl;
    [|done].
  destruct (_ && _); [|by apply IH].
  destruct (Dashboard.serie linha) as [s|e]; simpl; [|done]. by apply IH.
Qed.

(** Rows with another label leave the entry of a label as it is. *)
Lemma fracoes_keeps (k : pystr) (linhas : list row)
    (acc m : gmap pystr (list float)) :
  Dashboard.fracoes linhas acc = Ok m ->
  Forall (fun l' => fraccao_de l' <> Ok k) linhas ->
  m !! k = acc !! k.
Proof.
  intros Hm Hlinhas. revert acc Hm.
  induction Hlinhas as [|linha linhas Hk _ IH]; intros acc; simpl.
  - by intros [= <-].
  - unfold fraccao_de in Hk.
    destruct (py_strip (get linha "fraccao" (PyStr []))) as [k'|e]; simpl;
      [|done].
    destruct (_ && _); [|by apply IH].
    destruct (Dashboard.serie linha) as [s|e]; simpl; [|done].
    intros Hm. rewrite (IH _ Hm). apply lookup_insert_ne. congruence.
Qed.

(** A label that fails the test is never stored. *)
Lemma fracoes_excludes (k : pystr) (linhas : list row)
    (acc m : gmap pystr (list float)) :
  entra k = false ->
  Dashboard.fracoes linhas acc = Ok m ->
  m !! k = acc !! k.
Proof.
  intros Hk. revert acc.
  induction linhas as [|linha linhas IH]; intros acc; simpl.
  - by intros [= <-].
  - destruct (py_strip (get linha "fraccao" (PyStr []))) as [k'|e]; simpl;
      [|done].
    destruct (_ && _) eqn:Hk'; [|by apply IH].
    destruct (Dashboard.serie linha) as [s|e]; simpl; [|done].
    intros Hm. rewrite (IH _ Hm). apply lookup_insert_ne.
    intros ->. unfold entra in Hk. simpl in Hk. congruence.
Qed.

(** The last row of a label decides its series. *)
Lemma fracoes_last (k : pystr) (pre post : list row) (linha : row)
    (acc m : gmap pystr (list float)) :
  Dashboard.fracoes (pre ++ linha :: post) acc = Ok m ->
  fraccao_de linha = Ok k -> entra k = true ->
  Forall (fun l' => fraccao_de l' <> Ok k) post ->
  exists s, Dashboard.serie linha = Ok s /\ m !! k = Some s.
Proof.
  intros Hm Hk Hentra Hpost. rewrite fracoes_app in Hm.
  apply bind_Ok in Hm as (acc1 & _ & Hm). simpl in Hm.
  unfold fraccao_de in Hk. rewrite Hk in Hm. simpl in Hm.
  unfold entra in Hentra. simpl in Hentra. rewrite Hentra in Hm.
  destruct (Dashboard.serie linha) as [s|e]; simpl in Hm; [|done].
  exists s. split; [done|].
  rewrite (fracoes_keeps k post _ m Hm Hpost). apply lookup_insert_eq.
Qed.

Lemma totais_first (pre post : list row) (linha : row) :
  Forall (fun l' => linha_totais l' = Ok false) pre ->
  linha_totais linha = Ok true ->
  Dashboard.totais (pre ++ linha :: post) = Dashboard.serie linha.
Proof.
  unfold linha_totais, despesas_de. intros Hpre Hlinha.
  induction Hpre as [|l' pre Hl' _ IH]; simpl.
  - destruct (py_strip (get linha "despesas" (PyStr []))) as [d|e];
      simpl in *; [|done].
    injection Hlinha as ->. done.
  - destruct (py_strip (get l' "despesas" (PyStr []))) as [d|e];
      simpl in *; [|done].
    injection Hl' as ->. done.
Qed.

Lemma totais_none (linhas : list row) :
  Forall (fun l' => linha_totais l' = Ok false) linhas ->
  Dashboard.totais linhas = Ok [].
Proof.
  unfold linha_totais, despesas_de.
  induction 1 as [|l' linhas Hl' _ IH]; simpl; [done|].
  destruct (py_strip (get l' "despesas" (PyStr []))) as [d|e];
    simpl in *; [|done].
  injection Hl' as ->. done.
Qed.

(** C7, as stated, fails twice.  A month value that is text and not a
    number is not read as [0.0]: [float] raises, [dashboard] catches the
    exception and renders no series at all (not even the twelve zeros by
    month).  And of two rows with the same label, only the second one
    keeps its series in the map. *)
Lemma series_counterexample :
  (let fs := so_receitas_n [linha_fraccao (u "A") (PyStr (u "x"))] in
   Dashboard.rec_n_fracoes (Dashboard.view fs) !! u "A" = None
   /\ Dashboard.despesas_mensais (Dashboard.view fs) = [])
  /\ (let fs := so_receitas_n [linha_fraccao (u "A") (PyInt 1);
                               linha_fraccao (u "A") (PyInt 2)] in
      Dashboard.serie (linha_fraccao (u "A") (PyInt 1)) =
      Ok [1; 0; 0; 0; 0; 0; 0; 0; 0; 0; 0; 0]%float
      /\ Dashboard.rec_n_fracoes (Dashboard.view fs) !! u "A" =
         Some [2; 0; 0; 0; 0; 0; 0; 0; 0; 0; 0; 0]%float).
Proof. vm_compute. done. Qed.

(** C7 (amended): when [dashboard] raises no exception, what it renders is
    what its extraction loops return.  The per-entity map holds, for
    every stripped label that is non-empty and is not [TOTAIS] in any
    case, the twelve values of the last row carrying that label, read
    from January to December, an absent, [None] or otherwise false value
    being [0.0]; labels that are empty or [TOTAIS] are not in the map.
    The expense series is that of the first [TOTAIS] row of the expense
    table, and twelve zeros when there is none.  A month value that
    [float] rejects raises instead, and the view then renders its empty
    payload. *)
Theorem series_mensais (fs : source) :
  (forall ctx, Dashboard.calcular fs = Ok ctx ->
     Dashboard.view fs = ctx
     /\ Dashboard.fracoes (ler_dbf fs "ReceitasN.dbf") ∅ =
        Ok (Dashboard.rec_n_fracoes ctx)
     /\ Dashboard.fracoes (ler_dbf fs "ReceitasE.dbf") ∅ =
        Ok (Dashboard.rec_e_fracoes ctx)
     /\ Dashboard.despesas_mensais_de (ler_dbf fs "Despesas.dbf") =
        Ok (Dashboard.despesas_mensais ctx))
  /\ (raises (Dashboard.calcular fs) = true ->
      Dashboard.view fs = Dashboard.contexto_vazio)
  /\ (forall pre linha post m k,
        Dashboard.fracoes (pre ++ linha :: post) ∅ = Ok m ->
        fraccao_de linha = Ok k -> k <> [] -> upper k <> TOTAIS ->
        Forall (fun l' => fraccao_de l' <> Ok k) post ->
        exists s, Dashboard.serie linha = Ok s /\ m !! k = Some s)
  /\ (forall linhas m k,
        Dashboard.fracoes linhas ∅ = Ok m ->
        k = [] \/ upper k = TOTAIS -> m !! k = None)
  /\ (forall linha s,
        Dashboard.serie linha = Ok s ->
        length s = 12%nat
        /\ forall i mes, Dashboard.meses !! i = Some mes ->
             exists x, numero linha mes = Ok x /\ s !! i = Some x
               /\ (truthy (get linha mes (PyInt 0)) = false -> x = 0%float))
  /\ (forall pre linha post,
        Forall (fun l' => linha_totais l' = Ok false) pre ->
        linha_totais linha = Ok true ->
        Dashboard.despesas_mensais_de (pre ++ linha :: post) =
        (fun s : list float => PyFloat <$> s) <$> Dashboard.serie linha)
  /\ (forall linhas,
        Forall (fun l' => linha_totais l' = Ok false) linhas ->
        Dashboard.despesas_mensais_de linhas = Ok (replicate 12 (PyInt 0))).
Proof.
  split; [|split; [|split; [|split; [|split; [|split]]]]].
  - intros ctx Hctx. unfold Dashboard.view. rewrite Hctx. split; [done|].
    unfold Dashboard.calcular in Hctx.
    apply bind_Ok in Hctx as (rn & Hrn & Hctx).
    apply bind_Ok in Hctx as (re & Hre & Hctx).
    apply bind_Ok in Hctx as (dm & Hdm & Hctx).
    apply bind_Ok in Hctx as (st & Hst & Hctx).
    injection Hctx as <-. done.
  - apply try_except_raises.
  - intros pre linha post m k Hm Hk Hne Hup Hpost.
    apply (fracoes_last k pre post linha ∅ m); try done.
    unfold entra, str_eq. simpl.
    by rewrite !bool_decide_eq_false_2.
  - intros linhas m k Hm Hk.
    rewrite (fracoes_excludes k linhas ∅ m); [done| |done].
    unfold entra, str_eq. simpl. destruct Hk as [->| ->].
    + done.
    + rewrite (bool_decide_eq_true_2 (TOTAIS = TOTAIS)) by done.
      apply andb_false_r.
  - intros linha s Hs. split; [exact (serie_length linha s Hs)|].
    intros i mes Hmes.
    destruct (serie_lookup linha s i mes Hs Hmes) as (x & Hx & Hi).
    exists x. split; [done|]. split; [done|].
    intros Hf. rewrite (numero_falsy _ _ Hf) in Hx. by injection Hx.
  - intros pre linha post Hpre Hlinha. unfold Dashboard.despesas_mensais_de.
    rewrite totais_first by done.
    destruct (Dashboard.serie linha) as [s|e] eqn:Hs; simpl; [|done].
    apply serie_length in Hs. by destruct s.
  - intros linhas Hlinhas. unfold Dashboard.despesas_mensais_de.
    by rewrite totais_none.
Qed.

Example series_exemplo :
  let receitas :=
    [ linha_fraccao (u " A ") (PyInt 1);
      linha_fraccao (u "totais") (PyInt 9);
      linha_fraccao (u "B") PyNone;
      linha_fraccao (u "") (PyInt 7) ] in
  let despesas : list row :=
    [ {[ "despesas"%string := PyStr (u "Agua"); "fev"%string := PyInt 4 ]};
      {[ "despesas"%string := PyStr (u " Totais "); "fev"%string := PyInt 6 ]} ]
  in
  Dashboard.fracoes receitas ∅ =
  Ok {[ u "A" := [1; 0; 0; 0; 0; 0; 0; 0; 0; 0; 0; 0]%float;
        u "B" := [0; 0; 0; 0; 0; 0; 0; 0; 0; 0; 0; 0]%float ]}
  /\ Dashboard.despesas_mensais_de despesas =
     Ok (PyFloat <$> [0; 6; 0; 0; 0; 0; 0; 0; 0; 0; 0; 0]%float).
Proof. vm_compute. done. Qed.

(** * Further properties of the views *)

(** ** Chains over the four figures *)

Section Cadeia.

Variable corpo : linha_lida -> locals -> locals.
Variable classify : linha_lida -> category.
Hypothesis corpo_classify :
  forall l st, corpo l st = accumulate (classify l) (valor l) st.

Lemma cadeia_keeps (c : category) (post : list linha_lida) (st : locals) :
  c = PreviousBalance \/ c = TotalIncome \/ c = TotalExpense ->
  Forall (fun l' => classify l' <> c) post ->
  slot c (agregar corpo post st) = slot c st.
Proof.
  intros Hc Hpost. revert st.
  induction Hpost as [|l' post Hl' _ IH]; intros st; simpl; [done|].
  rewrite IH, corpo_classify. by apply accumulate_slot_other.
Qed.

Lemma cadeia_keeps_final (post : list linha_lida) (st : locals) :
  (saldo_final st =? 0)%float = false ->
  Forall (fun l' => classify l' <> FinalBalance) post ->
  saldo_final (agregar corpo post st) = saldo_final st.
Proof.
  intros Hst Hpost. revert st Hst.
  induction Hpost as [|l' post Hl' _ IH]; intros st Hst; simpl; [done|].
  assert (saldo_final (corpo l' st) = saldo_final st) as Heq.
  { rewrite corpo_classify.
    destruct (classify l'); try done. simpl. by rewrite Hst. }
  rewrite IH; [done|]. by rewrite Heq.
Qed.

Lemma cadeia_still_zero (pre : list linha_lida) (st : locals) :
  (saldo_final st =? 0)%float = true ->
  Forall (fun l' => classify l' <> FinalBalance) pre ->
  Forall (fun l' => classify l' = FinalBalanceCandidate ->
                    (valor l' =? 0)%float = true) pre ->
  (saldo_final (agregar corpo pre st) =? 0)%float = true.
Proof.
  intros Hst Hpre. revert st Hst.
  induction Hpre as [|l' pre Hl' _ IH]; intros st Hst Hz; simpl; [done|].
  inversion Hz as [|? ? Hz1 Hz2]; subst.
  apply IH; [|done].
  rewrite corpo_classify.
  destruct (classify l') eqn:Hc; try done. simpl.
  rewrite Hst. simpl. by apply Hz1.
Qed.

(** Rows that are no final-balance rows leave the final balance alone. *)
Lemma cadeia_sem_final (ls : list linha_lida) (st : locals) :
  Forall (fun l => sem_saldo_final (classify l) = true) ls ->
  saldo_final (agregar corpo ls st) = saldo_final st.
Proof.
  intros Hls. revert st.
  induction Hls as [|l ls Hl _ IH]; intros st; simpl; [done|].
  rewrite IH, corpo_classify. by destruct (classify l).
Qed.

End Cadeia.

Lemma resolver_derivado (st : locals) :
  saldo_final st = 0%float ->
  saldo_final (Index.resolver st) =
  (saldo_anterior (Index.resolver st) + total_receitas (Index.resolver st)
   - total_despesas (Index.resolver st))%float.
Proof. unfold Index.resolver. intros ->. reflexivity. Qed.

(** ** The derived final balance *)

(** X1: when no row of the table is a final-balance row of the view
    ([SALDO]/[FINAL], or the generic [TOTAL]/[TOTAL] row in [index] and
    [dashboard]), the final balance the view ends with is previous
    balance + income - expense, computed over the figures it ends with. *)
Theorem saldo_final_derivado (linhas : list row) (ls : list linha_lida) :
  map_result ler_linha linhas = Ok ls ->
  (Forall (fun l => sem_saldo_final (Index.classify l) = true) ls ->
   exists st, Index.calcular linhas = Ok st
     /\ saldo_final st =
        (saldo_anterior st + total_receitas st - total_despesas st)%float)
  /\ (Forall (fun l => sem_saldo_final (Dashboard.classify l) = true) ls ->
      exists st,
        Dashboard.resolver <$> Dashboard.ciclo linhas inicio = Ok st
        /\ saldo_final st =
           (saldo_anterior st + total_receitas st - total_despesas st)%float)
  /\ (Forall (fun l => Balanco.classify l <> FinalBalance) ls ->
      exists ctx, Balanco.calcular linhas = Ok ctx
        /\ Balanco.c_saldo_final ctx =
           (Balanco.sa_total (Balanco.c_saldo_anterior ctx)
            + Balanco.r_total (Balanco.c_receitas ctx)
            - Balanco.c_total_despesas ctx)%float).
Proof.
  intros Hler. split; [|split].
  - intros Hls. exists (Index.resolver (agregar Index.corpo ls inicio)).
    split.
    { unfold Index.calcular, Index.ciclo.
      by rewrite percorrer_agregar, Hler. }
    apply resolver_derivado.
    by rewrite (cadeia_sem_final _ _ index_corpo_classify).
  - intros Hls. exists (Dashboard.resolver (agregar Dashboard.corpo ls inicio)).
    split.
    { unfold Dashboard.ciclo. by rewrite percorrer_agregar, Hler. }
    apply resolver_derivado.
    by rewrite (cadeia_sem_final _ _ dashboard_corpo_classify).
  - intros Hls.
    exists (Balanco.resolver (agregar Balanco.corpo ls Balanco.inicio)).
    split.
    { unfold Balanco.calcular, Balanco.ciclo.
      by rewrite percorrer_agregar, Hler. }
    pose proof (balanco_agregar_keeps FinalBalance ls Balanco.inicio
                  eq_refl Hls) as Hsf.
    simpl in Hsf. unfold Balanco.resolver. simpl. by rewrite Hsf.
Qed.

Lemma saldo_final_derivado_witness :
  exists st, Index.calcular (linhas_identidade false) = Ok st
    /\ saldo_final st =
       (saldo_anterior st + total_receitas st - total_despesas st)%float.
Proof.
  apply (saldo_final_derivado (linhas_identidade false)
           [ LinhaLida TSA TSA SUBTOTAL 100;
             LinhaLida (u "TOTAL RECEITAS") (u "TOTAL RECEITAS") TOTAL 50;
             LinhaLida (u "TOTAL DESPESAS") (u "TOTAL DESPESAS") TOTAL 30 ]
           eq_refl).
  repeat constructor.
Defined.

(** ** A figure with no row of its own *)

(** X2: a figure for which the table has no row of its category is
    [0.0].  In particular the expense total of [balanco] is read from the
    [SUBTOTAL]/[DESPESAS] row only: without one it is [0.0] whatever the
    expense items listed. *)
Theorem variavel_sem_linha (linhas : list row) (ls : list linha_lida) :
  map_result ler_linha linhas = Ok ls ->
  (forall c,
     c = PreviousBalance \/ c = TotalIncome \/ c = TotalExpense ->
     (Forall (fun l => Index.classify l <> c) ls ->
      slot c <$> Index.calcular linhas = Ok 0%float)
     /\ (Forall (fun l => Dashboard.classify l <> c) ls ->
         slot c <$> (Dashboard.resolver <$> Dashboard.ciclo linhas inicio) =
         Ok 0%float))
  /\ (exists ctx, Balanco.calcular linhas = Ok ctx
        /\ (Forall (fun l => Balanco.classify l <> TotalExpense) ls ->
            Balanco.c_total_despesas ctx = 0%float)
        /\ (Forall (fun l => Balanco.classify l <> TotalIncome) ls ->
            Balanco.r_total (Balanco.c_receitas ctx) = 0%float)
        /\ (Forall (fun l => Balanco.classify l <> PreviousBalance) ls ->
            Balanco.sa_total (Balanco.c_saldo_anterior ctx) = 0%float)
        /\ (Forall (fun l => Balanco.classify l <> DepositOrdem) ls ->
            Balanco.sa_deposito_ordem (Balanco.c_saldo_anterior ctx)
            = 0%float)
        /\ (Forall (fun l => Balanco.classify l <> NumerarioCaixa) ls ->
            Balanco.sa_numerario_caixa (Balanco.c_saldo_anterior ctx)
            = 0%float)
        /\ (Forall (fun l => Balanco.classify l <> QuotasNormais) ls ->
            Balanco.r_quotas_normais (Balanco.c_receitas ctx) = 0%float)
        /\ (Forall (fun l => Balanco.classify l <> QuotasExtras) ls ->
            Balanco.r_quotas_extras (Balanco.c_receitas ctx) = 0%float)
        /\ (Forall (fun l => Balanco.classify l <> Juros) ls ->
            Balanco.r_juros (Balanco.c_receitas ctx) = 0%float)).
Proof.
  intros Hler. split.
  - intros c Hc. split; intros Hls.
    + unfold Index.calcular, Index.ciclo.
      rewrite percorrer_agregar, Hler. simpl. f_equal.
      rewrite index_resolver_slot by done.
      rewrite (cadeia_keeps _ _ index_corpo_classify) by done.
      by destruct Hc as [->|[->| ->]].
    + unfold Dashboard.ciclo. rewrite percorrer_agregar, Hler. simpl.
      f_equal. change (Dashboard.resolver ?st) with (Index.resolver st).
      rewrite index_resolver_slot by done.
      rewrite (cadeia_keeps _ _ dashboard_corpo_classify) by done.
      by destruct Hc as [->|[->| ->]].
  - exists (Balanco.resolver (agregar Balanco.corpo ls Balanco.inicio)).
    split.
    { unfold Balanco.calcular, Balanco.ciclo.
      by rewrite percorrer_agregar, Hler. }
    repeat split; intros Hls;
      match goal with
      | H : Forall (fun l => Balanco.classify l <> ?c) _ |- _ =>
          exact (balanco_agregar_keeps c ls Balanco.inicio eq_refl H)
      end.
Qed.

Lemma variavel_sem_linha_witness :
  exists ctx,
    Balanco.calcular
      [linha_balanco (u "Agua") (u "DESPESA") (PyInt 3)] = Ok ctx
    /\ Balanco.c_despesas ctx = [Balanco.Despesa (u "Agua") 3]
    /\ Balanco.c_total_despesas ctx = 0%float.
Proof.
  destruct (variavel_sem_linha
              [linha_balanco (u "Agua") (u "DESPESA") (PyInt 3)]
              [LinhaLida (u "Agua") (u "AGUA") DESPESA 3] eq_refl)
    as [_ (ctx & Hctx & Htd & _)].
  exists ctx. split; [exact Hctx|]. split.
  - injection Hctx as <-. reflexivity.
  - apply Htd. repeat constructor. discriminate.
Defined.

(** ** When two views show the same figures *)





(** Where a label-only rule applies, the two views part: on the rows of
    the balance identity the dashboard knows no income and no expense. *)
Example index_difere_do_dashboard :
  Index.calcular (linhas_identidade false) = Ok (Locals 50 30 100 120)
  /\ Dashboard.resolver <$> Dashboard.ciclo (linhas_identidade false) inicio
     = Ok (Locals 0 0 100 100).
Proof. vm_compute. done. Qed.

Lemma balanco_dashboard_corpo (l : linha_lida) (st : Balanco.locais) :
  so_de_uma_vista l = false ->
  figuras (Balanco.corpo l st) = Dashboard.corpo l (figuras st).
Proof.
  unfold so_de_uma_vista. intros H.
  repeat (apply orb_false_elim in H as [H ?]).
  unfold Balanco.corpo, Dashboard.corpo. cbv zeta.
  repeat match goal with
         | Hb : ?b = false |- _ => rewrite Hb; clear Hb
         end.
  simpl.
  destruct (py_in TSA (conta l)); [done|].
  destruct (str_eq (tipo l) SUBTOTAL); simpl.
  - destruct (py_in SALDO (conta l) && py_in ANTERIOR (conta l)); [done|].
    destruct (py_in RECEITAS (conta l)), (py_in DESPESAS (conta l));
      try done; simpl in *; try discriminate;
      by destruct (str_eq (tipo l) SALDO && py_in FINAL (conta l)).
  - by destruct (str_eq (tipo l) SALDO && py_in FINAL (conta l)).
Qed.

Lemma balanco_dashboard_agregar (ls : list linha_lida)
    (st : Balanco.locais) :
  Forall (fun l => so_de_uma_vista l = false) ls ->
  figuras (agregar Balanco.corpo ls st) =
  agregar Dashboard.corpo ls (figuras st).
Proof.
  intros Hls. revert st.
  induction Hls as [|l ls Hl _ IH]; intros st; simpl; [done|].
  by rewrite IH, balanco_dashboard_corpo.
Qed.

(** X4: [balanco] and [dashboard] read [Balanco.dbf] with different
    chains.  On a table with no expense item, no label carrying a marker
    that only [balanco] looks for, no generic [TOTAL]/[TOTAL] row and no
    [SUBTOTAL] label with both [RECEITAS] and [DESPESAS], the balance sheet
    and the dashboard end with the same previous balance, income, expense
    and final balance. *)
Theorem balanco_igual_dashboard (linhas : list row) (ls : list linha_lida) :
  map_result ler_linha linhas = Ok ls ->
  Forall (fun l => so_de_uma_vista l = false) ls ->
  exists ctx st,
    Balanco.calcular linhas = Ok ctx
    /\ Dashboard.resolver <$> Dashboard.ciclo linhas inicio = Ok st
    /\ Balanco.sa_total (Balanco.c_saldo_anterior ctx) = saldo_anterior st
    /\ Balanco.r_total (Balanco.c_receitas ctx) = total_receitas st
    /\ Balanco.c_total_despesas ctx = total_despesas st
    /\ Balanco.c_saldo_final ctx = saldo_final st.
Proof.
  intros Hler Hls.
  exists (Balanco.resolver (agregar Balanco.corpo ls Balanco.inicio)),
    (Dashboard.resolver (agregar Dashboard.corpo ls inicio)).
  split.
  { unfold Balanco.calcular, Balanco.ciclo.
    by rewrite percorrer_agregar, Hler. }
  split.
  { unfold Dashboard.ciclo. by rewrite percorrer_agregar, Hler. }
  pose proof (balanco_dashboard_agregar ls Balanco.inicio Hls) as Hfig.
  change (figuras Balanco.inicio) with inicio in Hfig. rewrite <- Hfig.
  unfold Balanco.resolver, Dashboard.resolver, figuras. simpl.
  by destruct (Balanco.saldo_final _ =? 0)%float.
Qed.

Lemma balanco_igual_dashboard_witness :
  exists ctx st,
    Balanco.calcular [linha_receitas 50] = Ok ctx
    /\ Dashboard.resolver <$> Dashboard.ciclo [linha_receitas 50] inicio
       = Ok st
    /\ Balanco.c_saldo_final ctx = saldo_final st.
Proof.
  destruct (balanco_igual_dashboard [linha_receitas 50]
              [LinhaLida RECEITAS RECEITAS SUBTOTAL 50] eq_refl)
    as (ctx & st & Hctx & Hst & _ & _ & _ & Hsf).
  - repeat constructor.
  - exists ctx, st. split; [exact Hctx|]. split; [exact Hst|exact Hsf].
Defined.

(** ** Which row a figure of [dashboard] keeps *)

(** X5: the balance composition of [dashboard] overwrites like [index]
    does.  For the previous balance, the income total and the expense
    total the last row of the category is the one kept; a [SALDO]/[FINAL]
    row that is not worth [0.0] is kept unless another one follows; among
    generic [TOTAL]/[TOTAL] rows, with no [SALDO]/[FINAL] row in the table,
    the first one that is not worth [0.0] is kept. *)
Theorem dashboard_sobrescreve (linhas : list row)
    (pre post : list linha_lida) (l : linha_lida) :
  map_result ler_linha linhas = Ok (pre ++ l :: post) ->
  exists st, Dashboard.resolver <$> Dashboard.ciclo linhas inicio = Ok st
    /\ (forall c,
          c = PreviousBalance \/ c = TotalIncome \/ c = TotalExpense ->
          Dashboard.classify l = c ->
          Forall (fun l' => Dashboard.classify l' <> c) post ->
          slot c st = valor l)
    /\ (Dashboard.classify l = FinalBalance ->
        (valor l =? 0)%float = false ->
        Forall (fun l' => Dashboard.classify l' <> FinalBalance) post ->
        saldo_final st = valor l)
    /\ (Dashboard.classify l = FinalBalanceCandidate ->
        (valor l =? 0)%float = false ->
        Forall (fun l' => Dashboard.classify l' <> FinalBalance)
          (pre ++ post) ->
        Forall (fun l' => Dashboard.classify l' = FinalBalanceCandidate ->
                          (valor l' =? 0)%float = true) pre ->
        saldo_final st = valor l).
Proof.
  intros Hler.
  exists (Dashboard.resolver
            (agregar Dashboard.corpo (pre ++ l :: post) inicio)).
  split.
  { unfold Dashboard.ciclo. by rewrite percorrer_agregar, Hler. }
  change (Dashboard.resolver ?st) with (Index.resolver st).
  rewrite agregar_app. simpl. rewrite dashboard_corpo_classify.
  set (st0 := agregar Dashboard.corpo pre inicio).
  split; [|split].
  - intros c Hc Hl Hpost. rewrite index_resolver_slot by done.
    rewrite (cadeia_keeps _ _ dashboard_corpo_classify) by done.
    rewrite Hl. apply accumulate_slot. tauto.
  - intros Hl Hv Hpost. rewrite Hl. simpl.
    rewrite index_resolver_final;
      rewrite (cadeia_keeps_final _ _ dashboard_corpo_classify); done.
  - intros Hl Hv Hfb Hz. rewrite Hl. simpl.
    apply Forall_app in Hfb as [Hpre Hpost].
    assert ((saldo_final st0 =? 0)%float = true) as ->
      by (by apply (cadeia_still_zero _ _ dashboard_corpo_classify)).
    rewrite index_resolver_final;
      rewrite (cadeia_keeps_final _ _ dashboard_corpo_classify); done.
Qed.

Lemma dashboard_sobrescreve_witness :
  exists st,
    Dashboard.resolver <$>
      Dashboard.ciclo [linha_receitas 50; linha_receitas 80] inicio = Ok st
    /\ total_receitas st = 80%float.
Proof.
  destruct (dashboard_sobrescreve [linha_receitas 50; linha_receitas 80]
              [LinhaLida RECEITAS RECEITAS SUBTOTAL 50] []
              (LinhaLida RECEITAS RECEITAS SUBTOTAL 80) eq_refl)
    as (st & Hst & Hslot & _).
  exists st. split; [exact Hst|].
  apply (Hslot TotalIncome); [tauto|reflexivity|constructor].
Defined.

(** ** Rows that cannot be read *)

Lemma map_result_Raise {A B} (f : A -> result B) (l : list A) (e : exn) :
  map_result f l = Raise e <->
  exists pre x post,
    l = pre ++ x :: post
    /\ Forall (fun y => raises (f y) = false) pre
    /\ f x = Raise e.
Proof.
  split.
  - induction l as [|a l IH]; simpl; [done|].
    destruct (f a) as [b|e'] eqn:Hfa; simpl.
    + destruct (map_result f l) as [k|e'']; simpl; [done|].
      intros [= ->]. destruct (IH eq_refl) as (pre & x & post & -> & Hpre & Hx).
      exists (a :: pre), x, post. split; [done|]. split; [|done].
      constructor; [by rewrite Hfa|done].
    + intros [= ->]. by exists [], a, l.
  - intros (pre & x & post & -> & Hpre & Hx).
    induction Hpre as [|a pre Ha _ IH]; simpl.
    + by rewrite Hx.
    + destruct (f a); [|done]. simpl. by rewrite IH.
Qed.

Lemma percorrer_Raise {S : Type} (corpo : linha_lida -> S -> S)
    (linhas : list row) (st : S) (e : exn) :
  percorrer corpo linhas st = Raise e <->
  map_result ler_linha linhas = Raise e.
Proof.
  rewrite percorrer_agregar.
  destruct (map_result ler_linha linhas); simpl; split; congruence.
Qed.

(** X6: [balanco] has no [try]: it raises exactly when some row of
    [Balanco.dbf] cannot be read, with the exception of the first such row
    (the rows after it are not looked at).  On such a table [index] shows
    its summary of zeros and [dashboard] renders its empty payload. *)
Theorem balanco_levanta (fs : source) (e : exn) :
  (balanco fs = Raise e <->
   exists pre linha post,
     ler_dbf fs "Balanco.dbf" = pre ++ linha :: post
     /\ Forall (fun l => raises (ler_linha l) = false) pre
     /\ ler_linha linha = Raise e)
  /\ (balanco fs = Raise e ->
      index fs = Index.resumo_zero
      /\ dashboard fs = Dashboard.contexto_vazio).
Proof.
  assert (balanco fs = Raise e <->
          map_result ler_linha (ler_dbf fs "Balanco.dbf") = Raise e) as Hb.
  { unfold balanco, Balanco.view, Balanco.calcular, Balanco.ciclo.
    rewrite <- (percorrer_Raise Balanco.corpo _ Balanco.inicio).
    destruct (percorrer Balanco.corpo _ _); simpl; split; congruence. }
  split.
  - rewrite Hb. apply map_result_Raise.
  - intros H. apply Hb in H. split.
    + apply try_except_raises. unfold Index.calcular, Index.ciclo.
      apply (percorrer_Raise Index.corpo _ inicio) in H. by rewrite H.
    + apply try_except_raises. unfold Dashboard.calcular, Dashboard.ciclo.
      apply (percorrer_Raise Dashboard.corpo _ inicio) in H. rewrite H.
      destruct (Dashboard.fracoes (ler_dbf fs "ReceitasN.dbf") ∅); simpl;
        [|done].
      destruct (Dashboard.fracoes (ler_dbf fs "ReceitasE.dbf") ∅); simpl;
        [|done].
      by destruct (Dashboard.despesas_mensais_de _).
Qed.

(** X7: a field that is absent is not a field that is empty.  A row with
    none of [conta], [tipo] and [valor] is read as a blank row worth [0.0],
    which no chain takes; but a [conta] or a [tipo] that is present and is
    not text ([None] included) makes [strip] raise [AttributeError]. *)
Theorem leitura_de_linha (linha : row) :
  (linha !! "conta"%string = None -> linha !! "tipo"%string = None ->
   linha !! "valor"%string = None ->
   ler_linha linha = Ok (LinhaLida [] [] [] 0)
   /\ forall nome_ v (st : locals) (stb : Balanco.locais),
        Index.corpo (LinhaLida nome_ [] [] v) st = st
        /\ Dashboard.corpo (LinhaLida nome_ [] [] v) st = st
        /\ Balanco.corpo (LinhaLida nome_ [] [] v) stb = stb)
  /\ (forall v, linha !! "conta"%string = Some v ->
        (forall s, v <> PyStr s) ->
        ler_linha linha = Raise AttributeError)
  /\ (forall s v, get linha "conta" (PyStr []) = PyStr s ->
        linha !! "tipo"%string = Some v -> (forall t, v <> PyStr t) ->
        ler_linha linha = Raise AttributeError).
Proof.
  split; [|split].
  - intros Hc Ht Hv. split.
    + unfold ler_linha, numero, get. by rewrite Hc, Ht, Hv.
    + intros nome_ v st stb. repeat split; by destruct stb.
  - intros v Hc Hv. unfold ler_linha, get. rewrite Hc. simpl.
    destruct v; try done. by destruct (Hv s).
  - intros s v Hc Ht Hv. unfold ler_linha. rewrite Hc. simpl.
    unfold get. rewrite Ht. simpl.
    destruct v; try done. by destruct (Hv s0).
Qed.

Example conta_nula_levanta :
  let linha : row := {[ "conta"%string := PyNone;
                        "valor"%string := PyInt 5 ]} in
  balanco (so_balanco [linha]) = Raise AttributeError
  /\ balanco (so_balanco [delete "conta"%string linha]) =
     Ok (Balanco.Contexto [] 0 (Balanco.SaldoAnterior 0 0 0 0)
           (Balanco.Receitas 0 0 0 0) 0 0 0).
Proof. vm_compute. done. Qed.

(** ** What the dashboard hands to its charts *)

Lemma fracoes_length (linhas : list row) (acc m : gmap pystr (list float)) :
  Dashboard.fracoes linhas acc = Ok m ->
  (forall k s, acc !! k = Some s -> length s = 12%nat) ->
  forall k s, m !! k = Some s -> length s = 12%nat.
Proof.
  revert acc. induction linhas as [|linha linhas IH]; intros acc; simpl.
  - intros [= <-]. done.
  - destruct (py_strip (get linha "fraccao" (PyStr []))) as [k'|e]; simpl;
      [|done].
    destruct (_ && _); [|by apply IH].
    destruct (Dashboard.serie linha) as [s'|e] eqn:Hs; simpl; [|done].
    intros Hm Hacc. apply (IH _ Hm). intros k s.
    rewrite lookup_insert. case_decide.
    + intros [= <-]. by apply (serie_length linha).
    + apply Hacc.
Qed.

Lemma totais_length (linhas : list row) (ds : list float) :
  Dashboard.totais linhas = Ok ds -> ds = [] \/ length ds = 12%nat.
Proof.
  induction linhas as [|linha linhas IH]; simpl.
  - intros [= <-]. by left.
  - destruct (py_strip (get linha "despesas" (PyStr []))) as [d|e]; simpl;
      [|done].
    destruct (str_eq (upper d) TOTAIS); [|done].
    intros Hs. right. by apply (serie_length linha).
Qed.

Lemma despesas_mensais_length (linhas : list row) (dm : list pyval) :
  Dashboard.despesas_mensais_de linhas = Ok dm -> length dm = 12%nat.
Proof.
  unfold Dashboard.despesas_mensais_de. intros H.
  apply bind_Ok in H as (ds & Hds & H). injection H as <-.
  apply totais_length in Hds as [->|Hds]; [done|].
  rewrite bool_decide_eq_false_2 by (by destruct ds).
  by rewrite length_fmap.
Qed.

(** X8: whenever [dashboard] gets through its computation, every series
    of its two per-entity maps has twelve values and the expense series has
    twelve entries. *)
Theorem series_com_doze_valores (fs : source) (ctx : Dashboard.contexto) :
  Dashboard.calcular fs = Ok ctx ->
  (forall k s, Dashboard.rec_n_fracoes ctx !! k = Some s ->
     length s = 12%nat)
  /\ (forall k s, Dashboard.rec_e_fracoes ctx !! k = Some s ->
        length s = 12%nat)
  /\ length (Dashboard.despesas_mensais ctx) = 12%nat.
Proof.
  unfold Dashboard.calcular. intros H.
  apply bind_Ok in H as (rn & Hrn & H).
  apply bind_Ok in H as (re & Hre & H).
  apply bind_Ok in H as (dm & Hdm & H).
  apply bind_Ok in H as (st & Hst & H). injection H as <-. simpl.
  split; [|split].
  - by apply (fracoes_length _ _ _ Hrn).
  - by apply (fracoes_length _ _ _ Hre).
  - by apply (despesas_mensais_length _ _ Hdm).
Qed.

Lemma series_com_doze_valores_witness :
  length (Dashboard.despesas_mensais
            (Dashboard.Contexto ∅ ∅ (replicate 12 (PyInt 0))
               (Dashboard.balanco_data inicio))) = 12%nat.
Proof.
  apply (series_com_doze_valores pasta_vazia). reflexivity.
Defined.

Lemma fracoes_dom (linhas : list row) (acc m : gmap pystr (list float))
    (k : pystr) :
  Dashboard.fracoes linhas acc = Ok m ->
  is_Some (m !! k) <->
  is_Some (acc !! k)
  \/ (entra k = true /\ Exists (fun l => fraccao_de l = Ok k) linhas).
Proof.
  revert acc. induction linhas as [|linha linhas IH]; intros acc; simpl.
  - intros [= <-]. split; [by left|].
    intros [H|[_ H]]; [done|]. by apply Exists_nil in H.
  - unfold fraccao_de at 1.
    destruct (py_strip (get linha "fraccao" (PyStr []))) as [k'|e] eqn:Hk';
      simpl; [|done].
    change (negb (bool_decide (k' = [])) && negb (str_eq (upper k') TOTAIS))
      with (entra k').
    destruct (entra k') eqn:Hentra.
    + destruct (Dashboard.serie linha) as [s|e]; simpl; [|done].
      intros Hm. rewrite (IH _ Hm), lookup_insert_is_Some, Exists_cons.
      unfold fraccao_de at 1. rewrite Hk'. split.
      * intros [[->|[_ H]]|[He H]]; auto.
      * intros [H|[He [[= ->]|H]]]; auto.
        destruct (decide (k' = k)) as [->|Hne]; auto.
    + intros Hm. rewrite (IH _ Hm), Exists_cons.
      unfold fraccao_de at 1. rewrite Hk'. split.
      * intros [H|[He H]]; auto.
      * intros [H|[He [[= ->]|H]]]; auto. congruence.
Qed.

(** X9: a per-entity map of [dashboard] has an entry for a label exactly
    when the label is non-empty, is not [TOTAIS] in any case, and is the
    stripped [fraccao] of some row of the table. *)
Theorem fracoes_no_mapa (linhas : list row) (m : gmap pystr (list float))
    (k : pystr) :
  Dashboard.fracoes linhas ∅ = Ok m ->
  is_Some (m !! k) <->
  k <> [] /\ upper k <> TOTAIS
  /\ Exists (fun l => fraccao_de l = Ok k) linhas.
Proof.
  intros Hm. rewrite (fracoes_dom _ _ _ k Hm), lookup_empty.
  unfold entra, str_eq. simpl.
  rewrite andb_true_iff, !negb_true_iff, !bool_decide_eq_false.
  split.
  - intros [H|[[H1 H2] H3]]; [by destruct H|done].
  - intros (H1 & H2 & H3). by right.
Qed.

Lemma fracoes_no_mapa_witness :
  is_Some (({[ u "A" := [1; 0; 0; 0; 0; 0; 0; 0; 0; 0; 0; 0]%float ]}
            : gmap pystr (list float)) !! u "A") <->
  u "A" <> [] /\ upper (u "A") <> TOTAIS
  /\ Exists (fun l => fraccao_de l = Ok (u "A"))
       [linha_fraccao (u "A") (PyInt 1)].
Proof.
  apply (fracoes_no_mapa [linha_fraccao (u "A") (PyInt 1)]). reflexivity.
Defined.

(** X10: the payload of the [except] branch cannot be taken for a
    result: [dashboard] renders an empty balance composition, and an empty
    expense series, exactly when its computation raised. *)
Theorem dashboard_vazio_so_com_erro (fs : source) :
  (Dashboard.balanco (dashboard fs) = ∅ <->
   raises (Dashboard.calcular fs) = true)
  /\ (Dashboard.despesas_mensais (dashboard fs) = [] <->
      raises (Dashboard.calcular fs) = true).
Proof.
  unfold dashboard, Dashboard.view.
  destruct (Dashboard.calcular fs) as [ctx|e] eqn:Hctx; simpl.
  - split; (split; [|done]); intros H; exfalso.
    + unfold Dashboard.calcular in Hctx.
      apply bind_Ok in Hctx as (rn & _ & Hctx).
      apply bind_Ok in Hctx as (re & _ & Hctx).
      apply bind_Ok in Hctx as (dm & _ & Hctx).
      apply bind_Ok in Hctx as (st & _ & Hctx). injection Hctx as <-.
      simpl in H.
      assert (Dashboard.balanco_data (Dashboard.resolver st)
                !! "saldo_final"%string = None) as Hl
        by (by rewrite H).
      unfold Dashboard.balanco_data in Hl. vm_compute in Hl. done.
    + unfold Dashboard.calcular in Hctx.
      apply bind_Ok in Hctx as (rn & _ & Hctx).
      apply bind_Ok in Hctx as (re & _ & Hctx).
      apply bind_Ok in Hctx as (dm & Hdm & Hctx).
      apply bind_Ok in Hctx as (st & _ & Hctx). injection Hctx as <-.
      simpl in H. apply despesas_mensais_length in Hdm.
      by rewrite H in Hdm.
  - done.
Qed.

(** ** The list views: blanking the empty cells *)

Lemma limpa_idem (v : pyval) : limpa (limpa v) = limpa v.
Proof. unfold limpa. by destruct (none_ou_zero v) eqn:Hv; [|rewrite Hv]. Qed.

Lemma none_ou_zero_falsy (v : pyval) :
  none_ou_zero v = true -> truthy v = false.
Proof.
  destruct v as [|b|z|f|s|y m d]; simpl; try done.
  - by intros ->%negb_true_iff.
  - by intros ->.
  - by intros ->.
Qed.

Lemma limpar_campo_lookup (linha : row) (c k : string) :
  limpar_campo linha c !! k =
  if decide (k = c) then limpa <$> linha !! k else linha !! k.
Proof.
  unfold limpar_campo, limpa.
  destruct (linha !! c) as [v|] eqn:Hc.
  - destruct (none_ou_zero v) eqn:Hv.
    + rewrite lookup_insert. repeat case_decide; subst; try done.
      by rewrite Hc; simpl; rewrite Hv.
    + case_decide; subst; [|done]. by rewrite Hc; simpl; rewrite Hv.
  - case_decide; subst; [|done]. by rewrite Hc.
Qed.

Lemma limpar_campos_lookup (campos : list string) (linha : row)
    (k : string) :
  limpar_campos campos linha !! k =
  if decide (k ∈ campos) then limpa <$> linha !! k else linha !! k.
Proof.
  unfold limpar_campos. revert linha.
  induction campos as [|c campos IH]; intros linha; simpl.
  - done.
  - rewrite IH, limpar_campo_lookup.
    destruct (decide (k = c)) as [->|Hkc].
    + rewrite (decide_True _ _ (list_elem_of_here c campos)).
      case_decide; [|done].
      destruct (linha !! c); simpl; [|done]. by rewrite limpa_idem.
    + destruct (decide (k ∈ campos)) as [Hin|Hnin].
      * rewrite decide_True by (by right). done.
      * rewrite decide_False; [done|].
        by intros [?|?]%elem_of_cons.
Qed.

Lemma limpar_linha_lookup (linha : row) (k : string) :
  limpar_linha linha !! k = limpa <$> linha !! k.
Proof.
  unfold limpar_linha. rewrite limpar_campos_lookup.
  case_decide as Hk; [done|].
  rewrite elem_of_elements, elem_of_dom in Hk.
  destruct (linha !! k); [|done]. by destruct Hk.
Qed.

(** X11: in [receitas_normais], [receitas_extraordinarias] and
    [despesas], the loop over the fields of a row replaces by [None]
    exactly the values that are [None] or equal [0] ([0], [0.0], [-0.0],
    and [False]); it does so whatever the order of the keys, keeps every
    key, and leaves text alone, be it empty or "0". *)
Theorem limpar_linha_valores (linha : row) :
  (forall campos,
     (forall k, is_Some (linha !! k) -> k ∈ campos) ->
     limpar_campos campos linha = limpa <$> linha)
  /\ limpar_linha linha = limpa <$> linha
  /\ dom (limpar_linha linha) = dom linha
  /\ (forall k s, linha !! k = Some (PyStr s) ->
        limpar_linha linha !! k = Some (PyStr s))
  /\ (forall k v, linha !! k = Some v -> none_ou_zero v = true ->
        limpar_linha linha !! k = Some PyNone).
Proof.
  assert (limpar_linha linha = limpa <$> linha) as Heq.
  { apply map_eq. intros k. by rewrite limpar_linha_lookup, lookup_fmap. }
  split; [|split; [|split; [|split]]].
  - intros campos Hc. apply map_eq. intros k.
    rewrite limpar_campos_lookup, lookup_fmap.
    case_decide as Hk; [done|].
    destruct (linha !! k) eqn:Hl; [|done]. destruct Hk. apply Hc.
    by rewrite Hl.
  - done.
  - rewrite Heq. apply dom_fmap_L.
  - intros k s Hk. by rewrite limpar_linha_lookup, Hk.
  - intros k v Hk Hv. rewrite limpar_linha_lookup, Hk. simpl.
    unfold limpa. by rewrite Hv.
Qed.

(** X12: after the loop no field of a row holds a value equal to [0]:
    each is [None] or a value that is neither [None] nor [0]; running the
    loop again changes nothing; and the three views keep the number and the
    order of the rows. *)
Theorem limpar_sem_zeros (dados : list row) :
  Forall (fun linha =>
            forall k v, linha !! k = Some v ->
              v = PyNone \/ none_ou_zero v = false) (limpar dados)
  /\ limpar (limpar dados) = limpar dados
  /\ length (limpar dados) = length dados
  /\ (forall i linha, dados !! i = Some linha ->
        limpar dados !! i = Some (limpar_linha linha)).
Proof.
  unfold limpar. split; [|split; [|split]].
  - apply Forall_fmap, Forall_forall. intros linha _ k v. simpl.
    rewrite limpar_linha_lookup.
    destruct (linha !! k) as [w|]; simpl; [|done].
    intros [= <-]. unfold limpa.
    destruct (none_ou_zero w) eqn:Hw; auto.
  - rewrite <- list_fmap_compose. apply list_fmap_ext.
    intros i linha _. simpl. apply map_eq. intros k.
    rewrite !limpar_linha_lookup.
    destruct (linha !! k); simpl; [|done]. by rewrite limpa_idem.
  - apply length_fmap.
  - intros i linha Hi. by rewrite list_lookup_fmap, Hi.
Qed.

Lemma numero_limpar_linha (linha : row) (campo : string) :
  numero (limpar_linha linha) campo = numero linha campo.
Proof.
  unfold numero, get. rewrite limpar_linha_lookup.
  destruct (linha !! campo) as [v|]; simpl; [|done].
  unfold limpa. destruct (none_ou_zero v) eqn:Hv; [|done].
  unfold py_or. by rewrite (none_ou_zero_falsy v Hv).
Qed.

Lemma py_strip_limpar_linha (linha : row) (campo : string) :
  py_strip (get (limpar_linha linha) campo (PyStr [])) =
  py_strip (get linha campo (PyStr [])).
Proof.
  unfold get. rewrite limpar_linha_lookup.
  destruct (linha !! campo) as [v|]; simpl; [|done].
  unfold limpa. by destruct v as [|[]|z|f|s|y m d]; simpl;
    try destruct (z =? 0); try destruct (f =? 0)%float.
Qed.

Lemma serie_limpar_linha (linha : row) :
  Dashboard.serie (limpar_linha linha) = Dashboard.serie linha.
Proof.
  unfold Dashboard.serie.
  induction Dashboard.meses as [|mes meses IH]; simpl; [done|].
  by rewrite numero_limpar_linha, IH.
Qed.

(** X13: a cell that the list views blank out is a cell that the
    computing views read as [0.0].  Read from the blanked rows, an amount,
    a row of [Balanco.dbf], a monthly series, a per-entity map and the
    expense series are what they are read from the rows of the table, value
    or exception alike. *)
Theorem limpar_nao_muda_leitura (dados : list row) :
  (forall linha campo,
     numero (limpar_linha linha) campo = numero linha campo)
  /\ (forall linha, ler_linha (limpar_linha linha) = ler_linha linha)
  /\ (forall acc,
        Dashboard.fracoes (limpar dados) acc = Dashboard.fracoes dados acc)
  /\ Dashboard.despesas_mensais_de (limpar dados) =
     Dashboard.despesas_mensais_de dados
  /\ map_result ler_linha (limpar dados) = map_result ler_linha dados.
Proof.
  assert (forall linha, ler_linha (limpar_linha linha) = ler_linha linha)
    as Hler.
  { intros linha. unfold ler_linha.
    by rewrite !py_strip_limpar_linha, numero_limpar_linha. }
  split; [apply numero_limpar_linha|]. split; [done|].
  unfold limpar. split; [|split].
  - induction dados as [|linha dados IH]; intros acc; simpl; [done|].
    rewrite py_strip_limpar_linha, serie_limpar_linha.
    destruct (py_strip (get linha "fraccao" (PyStr []))); simpl; [|done].
    destruct (_ && _); [|by apply IH].
    destruct (Dashboard.serie linha); simpl; [|done]. by apply IH.
  - unfold Dashboard.despesas_mensais_de. f_equal.
    induction dados as [|linha dados IH]; simpl; [done|].
    rewrite py_strip_limpar_linha, serie_limpar_linha.
    destruct (py_strip (get linha "despesas" (PyStr []))); simpl; [|done].
    by destruct (str_eq (upper _) TOTAIS).
  - induction dados as [|linha dados IH]; csimpl; [done|].
    by rewrite Hler, IH.
Qed.

Example limpar_exemplo :
  limpar_linha
    {[ "jan"%string := PyInt 0; "fev"%string := PyFloat 12.5;
       "pago"%string := PyBool false; "obs"%string := PyStr (u "0") ]}
  = {[ "jan"%string := PyNone; "fev"%string := PyFloat 12.5;
       "pago"%string := PyNone; "obs"%string := PyStr (u "0") ]}.
Proof. vm_compute. reflexivity. Qed.

(** ** [api_test_movimentos] *)

(** X14: when the file exists, the structure answer counts the rows
    that [bancos] shows and carries their first three, whatever their
    number (the test on the length changes nothing); a file that exists but
    cannot be read is answered like an empty table, not like a missing
    one. *)
Theorem teste_movimentos (caminho : string) (existe : string -> bool)
    (fs : source) :
  existe caminho = true ->
  exists campos,
    api_test_movimentos caminho existe fs =
    Estrutura caminho (length (bancos fs)) campos (take 3 (bancos fs))
    /\ (bancos fs = [] -> campos = ∅)
    /\ (forall d0 resto, bancos fs = d0 :: resto -> campos = dom d0)
    /\ (fs "Bancos.dbf"%string = None ->
        api_test_movimentos caminho existe fs = Estrutura caminho 0 ∅ []).
Proof.
  intros He. unfold api_test_movimentos, bancos. rewrite He. simpl.
  exists (match ler_dbf fs "Bancos.dbf" with
          | d0 :: _ => dom d0
          | [] => ∅
          end).
  split; [|split; [|split]].
  - f_equal. by destruct (ler_dbf fs "Bancos.dbf") as [|d0 [|d1 [|d2 ?]]].
  - by intros ->.
  - by intros d0 resto ->.
  - intros Hfs. unfold ler_dbf. by rewrite Hfs.
Qed.

Lemma teste_movimentos_witness :
  exists campos,
    api_test_movimentos "Bancos.dbf" (fun _ => true) pasta_vazia =
    Estrutura "Bancos.dbf" 0 campos [].
Proof.
  destruct (teste_movimentos "Bancos.dbf" (fun _ => true) pasta_vazia
              eq_refl) as (campos & H & _).
  exists campos. exact H.
Defined.
